(* ===== verification/_CoqProject ===== *)
-Q . S2P
Prelude.v
PyNum.v
Json.v
Schema.v
Session.v
CreateProduct.v
LowStock.v
Interaction.v
