(* ===== verification/Prelude.v ===== *)
(** * A verification development for the StockFlow inventory endpoints

    The repository has two Flask request handlers over a relational
    database reached through SQLAlchemy:

    - [src/fixedApiEnd.py], [create_product] ([POST /api/products]):
      validates a JSON body, checks that the SKU is free, inserts a
      [Product], flushes it to learn its id, inserts an [Inventory] row for
      it and commits; every exception rolls the session back and is mapped
      to a 400, 409 or 500 response.
    - [src/low_stock_alert_APIEndpoint.py], [get_low_stock_alerts]
      ([GET /api/companies/<id>/alerts/low-stock]): one SQL query joining
      Inventory, Product, Warehouse, ProductType, Supplier (outer join) and
      SalesActivity, filtered to the company, to sales of the last 30 days
      and to stock at or below the product type's threshold, grouped per
      item with the sum of recent sales; then a Python loop computing
      [days_until_stockout] with float arithmetic and building the alerts.

    The handlers do not call each other: they interact only through the
    shared database, which the first writes and the second reads.

    ** Files (in dependency order)

    - [Prelude] (this file): the Python exception type, the [outcome]
      error type and its notation in [py_scope], the [py] hint database,
      shared Ltac and generic lemmas on lists and sums.
    - [PyNum]: the Python numeric builtins the handlers call, on IEEE
      binary64 floats (Rocq's primitive [float], computed through
      [SpecFloat]): [float(int)], [int / int], [int / float],
      [int(float)], and [int(str)], [float(str)] with Python's grammar
      (whitespace, sign, underscores, [inf]/[nan]).
    - [Json]: the JSON values Flask hands to the handler ([request.json]),
      Python truthiness, the [in] operator, subscripting, and the
      [float()]/[int()] coercions dispatched on the value's type.
    - [Schema]: the tables of the data model (Product, Inventory,
      Warehouse, ProductType, Supplier, SalesActivity), the integrity
      constraints the database enforces (primary keys, unique SKU, foreign
      keys, one inventory row per product and warehouse) and the checked
      INSERT.  The ORM models are not part of [src/]: they are modelled
      from the spec's data model (section 3).
    - [Session]: the SQLAlchemy session used by [create_product] as a
      state and exception monad: the committed database, the
      transaction's working copy, the pending objects, [add], [flush]
      (id assignment, constraint checks), [commit], [rollback], autoflushing
      queries, and [try_except].  Modelled from the spec (sections 4.1, 5,
      7), as SQLAlchemy is a library the sources only call.
    - [CreateProduct]: [create_product] statement by statement, the
      request-level run from a committed database, its abstract contract
      (all-or-nothing, spec 4.1) and the theorems below.
    - [LowStock]: [get_low_stock_alerts]: the join as a list
      comprehension, the WHERE filter, GROUP BY with SUM, the formatting
      loop with [days_until_stockout], and the abstract contract of spec
      4.2.
    - [Interaction]: the application of spec section 2: [serve] answers
      one request (a creation runs [run_create] and keeps the committed
      database it leaves, an alert request reads the database) and
      [serve_all] serves a sequence of requests one after the other over
      one shared database.

    ** What the theorems show

    - Creation ([CreateProduct]): the handler is all-or-nothing (the
      committed database is either unchanged or extended by exactly one
      Product and one linked Inventory row, and only the latter is
      answered 201); each error path gives its concrete response with the
      database unchanged: 409 naming the SKU for a taken SKU, 400 for a
      price or quantity [float()]/[int()] reject with [ValueError] or
      [TypeError] (the quantity case after the product was flushed and
      rolled back), 500 for the [OverflowError] of [int(inf)], 409 for an
      unknown warehouse, 400 for a missing field, an escaping [TypeError]
      for a scalar body; a valid request succeeds with the next id and
      stores price and quantity unchecked.
    - Alerts ([LowStock]): soundness (an alert is an item of the company,
      at or below threshold, with a recent sale), completeness (every
      such item is reported), one alert per item, the reported total is
      the sum of the recent sales.  [days_until_stockout] against the
      floor of spec 4.2: for every stock [0..200] and total [1..200] the
      value is [floor(30 q / t)], or one less only when that quotient is
      an integer (float rounding); for every stock [-200..-1] it is one
      more than the floor whenever the quotient is not an integer
      ([int()] truncates toward zero).  Both come from one boolean
      checker run once by [vm_compute] over [-200..200] x [1..200], then
      a generic lemma, so that [Qed] does not re-run it; 200 covers the
      spec's worked example and the rounding counterexamples (the first,
      23 / 23, gives 29) while keeping the check to seconds.
    - Python builtins ([PyNum]): [int()] reads back the decimal text
      [str(n)] of every integer.
    - Interaction: a product created through the endpoint never has a
      product type, so in any sequence of creation and alert requests on
      a database satisfying its constraints, every alert request is
      answered as on the initial database.

    ** Modelling choices, bounds and what is left out

    - Python floats are binary64 ([PrimFloat.float]); conversions and
      divisions of Python integers are correctly rounded via
      [SpecFloat.SFdiv_core_binary] and [binary_round_aux], as CPython's
      [float(int)] and [int / int] are.  Integers are unbounded [Z] as in
      Python; overflow to infinity raises [OverflowError] as in CPython.
    - Time is an integer number of microseconds; [now] is an input of
      the alert handler ([datetime.utcnow()]).  The 30-day window is
      [30 * 86400 * 10^6] microseconds.
    - SQL query results are bags: the model evaluates the join in one
      fixed order (inventory rows in table order) and all alert theorems
      are stated by membership, so they hold for any row order.
    - Value binding: a JSON string binds to a text column and a JSON
      integer to an integer column; any other value makes the driver raise
      a non-integrity database error ([DBAPIError]).  This is a modelling
      assumption about the driver (strict binding, as with PostgreSQL).
    - Id assignment: a flushed row receives [1 + max] of the table's ids.
    - Not modelled: Flask routing and JSON decoding (the handler receives
      the decoded body), HTTP serialisation of [jsonify], the connection
      pool.  Concurrent requests are planned as an interleaving of the
      handler's steps over a shared database (see the plan below).

    ** Plan for the following sittings

    1. interleavings of two [create_product] requests over a shared
       database, as a step relation, with the SKU-uniqueness invariant by
       rule induction and the 409 outcome of the losing request;
    2. a [Class] interface for the session operations, with the atomicity
       proof done against its laws;
    3. [float(str)] on decimal literals against [float(int)], and bounds
       of the alert handler's float arithmetic beyond the checked range. *)

From Stdlib Require Import ZArith.
From stdpp Require Import base list.

(** ** Python exceptions and results of fallible computations *)

(** The exception classes the handlers can meet.  [IntegrityError] and
    [DBAPIError] are SQLAlchemy's; the others are Python builtins. *)
Inductive py_exc :=
| ValueError
| TypeError
| KeyError
| OverflowError
| ZeroDivisionError
| IntegrityError
| DBAPIError.

#[export] Instance py_exc_eq_dec : EqDecision py_exc.
Proof. solve_decision. Qed.

(** A computation that returns a value or raises. *)
Inductive outcome (A : Type) :=
| Ok (a : A)
| Raise (e : py_exc).
Arguments Ok {A} a.
Arguments Raise {A} e.

Definition obind {A B} (c : outcome A) (k : A -> outcome B) : outcome B :=
  match c with
  | Ok a => k a
  | Raise e => Raise e
  end.

Declare Scope py_scope.
Delimit Scope py_scope with py.
Notation "x <-? c ;; k" := (obind c (fun x => k))
  (at level 100, c at next level, right associativity) : py_scope.

(** ** Sums over lists of integers ([SUM] in SQL) *)

Fixpoint sumZ (l : list Z) : Z :=
  match l with
  | [] => 0%Z
  | x :: l' => (x + sumZ l')%Z
  end.

Lemma sumZ_app l1 l2 : sumZ (l1 ++ l2) = (sumZ l1 + sumZ l2)%Z.
Proof. induction l1 as [|x l1 IH]; simpl; lia. Qed.

(** ** Generic list lemmas shared by the components *)

Lemma in_flat_map_iff {A B} (f : A -> list B) (l : list A) (y : B) :
  In y (flat_map f l) <-> exists x, In x l /\ In y (f x).
Proof. apply in_flat_map. Qed.

Lemma in_filter_iff {A} (p : A -> bool) (l : list A) (x : A) :
  In x (List.filter p l) <-> In x l /\ p x = true.
Proof. apply filter_In. Qed.

Lemma filter_all_false {A} (p : A -> bool) (l : list A) :
  (forall x, In x l -> p x = false) -> List.filter p l = [].
Proof.
  induction l as [|x l IH]; simpl; intros H; [done|].
  rewrite H by auto. apply IH. auto.
Qed.

Lemma filter_nil_false {A} (p : A -> bool) (l : list A) x :
  List.filter p l = [] -> In x l -> p x = false.
Proof.
  intros Hnil Hin. destruct (p x) eqn:Hp; [|done].
  assert (In x (List.filter p l)) as Hf by (apply filter_In; auto).
  by rewrite Hnil in Hf.
Qed.

(** Two members of a list whose images under [f] are distinct are equal
    when they have the same image. *)
Lemma NoDup_fmap_eq {A B} (f : A -> B) (l : list A) x y :
  NoDup (f <$> l) -> x ∈ l -> y ∈ l -> f x = f y -> x = y.
Proof.
  induction l as [|z l IH]; simpl; intros Hnd Hx Hy Hf; [by apply elem_of_nil in Hx|].
  apply NoDup_cons in Hnd as [Hn Hnd].
  apply elem_of_cons in Hx as [->|Hx], Hy as [->|Hy]; try done; [| |by apply IH].
  - exfalso. apply Hn. rewrite Hf. by apply list_elem_of_fmap_2.
  - exfalso. apply Hn. rewrite <- Hf. by apply list_elem_of_fmap_2.
Qed.

(** Distinctness of a finer image transfers to a coarser one. *)
Lemma NoDup_fmap_factor {A B C} (f : A -> B) (g : A -> C) (l : list A) :
  NoDup (g <$> l) -> (forall x y, x ∈ l -> y ∈ l -> f x = f y -> g x = g y) ->
  NoDup (f <$> l).
Proof.
  induction l as [|z l IH]; simpl; intros Hnd Hfg; [constructor|].
  apply NoDup_cons in Hnd as [Hn Hnd]. apply NoDup_cons. split.
  - intros (y & Hfy & Hy)%list_elem_of_fmap. apply Hn. apply list_elem_of_fmap.
    exists y. split; [|done]. apply Hfg; [constructor|by apply elem_of_cons; right|done].
  - apply IH; [done|]. intros x y Hx Hy. apply Hfg; by apply elem_of_cons; right.
Qed.

Lemma flat_map_nil_ok {A B} (g : A -> list B) (l : list A) :
  (forall y, y ∈ l -> g y = []) -> flat_map g l = [].
Proof.
  induction l as [|z l IH]; simpl; intros H; [done|].
  rewrite H by constructor. apply IH. intros y Hy. apply H. by apply elem_of_cons; right.
Qed.

Lemma flat_map_ext_in {A B} (f g : A -> list B) (l : list A) :
  (forall x, In x l -> f x = g x) -> flat_map f l = flat_map g l.
Proof.
  induction l as [|x l IH]; simpl; intros H; [done|].
  rewrite H by auto. f_equal. apply IH. auto.
Qed.

Lemma find_all_false {A} (p : A -> bool) (l : list A) :
  (forall x, In x l -> p x = false) -> List.find p l = None.
Proof.
  induction l as [|x l IH]; simpl; intros H; [done|].
  rewrite H by auto. apply IH. auto.
Qed.

Lemma filter_all_true {A} (p : A -> bool) (l : list A) :
  (forall x, In x l -> p x = true) -> List.filter p l = l.
Proof.
  induction l as [|x l IH]; simpl; intros H; [done|].
  rewrite H by auto. f_equal. apply IH. auto.
Qed.

Lemma filter_filter_and {A} (p q : A -> bool) (l : list A) :
  List.filter p (List.filter q l) = List.filter (fun x => q x && p x) l.
Proof.
  induction l as [|x l IH]; simpl; [done|].
  destruct (q x); simpl; [|done]. destruct (p x); simpl; congruence.
Qed.

Lemma filter_map_comm {A B} (p : B -> bool) (f : A -> B) (l : list A) :
  List.filter p (map f l) = map f (List.filter (fun x => p (f x)) l).
Proof.
  induction l as [|x l IH]; simpl; [done|].
  destruct (p (f x)); simpl; congruence.
Qed.

Lemma filter_flat_map {A B} (p : B -> bool) (f : A -> list B) (l : list A) :
  List.filter p (flat_map f l) = flat_map (fun x => List.filter p (f x)) l.
Proof. induction l as [|x l IH]; simpl; [done|]. by rewrite List.filter_app, IH. Qed.

(** A [flat_map] over a duplicate-free list in which only [x] contributes. *)
Lemma flat_map_single {A B} (g : A -> list B) (l : list A) x :
  NoDup l -> x ∈ l -> (forall y, y ∈ l -> y <> x -> g y = []) -> flat_map g l = g x.
Proof.
  induction l as [|z l IH]; simpl; intros Hnd Hx Hg; [by apply elem_of_nil in Hx|].
  apply NoDup_cons in Hnd as [Hn Hnd]. apply elem_of_cons in Hx as [->|Hx].
  - rewrite (flat_map_nil_ok g l); [apply app_nil_r|].
    intros y Hy. apply Hg; [by apply elem_of_cons; right|]. intros ->. by apply Hn.
  - rewrite Hg; [|constructor|intros ->; by apply Hn]. simpl. apply IH; [done|done|].
    intros y Hy. apply Hg. by apply elem_of_cons; right.
Qed.

(** Selecting by a key that is unique in the list yields one row. *)
Lemma filter_key_unique {A} (f : A -> Z) (l : list A) x :
  NoDup (f <$> l) -> x ∈ l -> List.filter (fun y => (f y =? f x)%Z) l = [x].
Proof.
  induction l as [|z l IH]; simpl; intros Hnd Hx; [by apply elem_of_nil in Hx|].
  apply NoDup_cons in Hnd as [Hn Hnd]. apply elem_of_cons in Hx as [->|Hx].
  - rewrite Z.eqb_refl. f_equal. apply filter_all_false. intros y Hy.
    apply Z.eqb_neq. intros Heq. apply Hn. rewrite <- Heq.
    apply list_elem_of_fmap_2. by apply list_elem_of_In.
  - destruct (Z.eqb_spec (f z) (f x)) as [Heq|]; [|by apply IH].
    exfalso. apply Hn. rewrite Heq. by apply list_elem_of_fmap_2.
Qed.

Lemma obind_Ok {A B} (c : outcome A) (k : A -> outcome B) b :
  obind c k = Ok b -> exists a, c = Ok a /\ k a = Ok b.
Proof. destruct c; simpl; [eauto | discriminate]. Qed.

Lemma obind_Raise {A B} (c : outcome A) (k : A -> outcome B) e :
  obind c k = Raise e -> c = Raise e \/ exists a, c = Ok a /\ k a = Raise e.
Proof. destruct c; simpl; [eauto | intros [= ->]; by left]. Qed.

Create HintDb py discriminated.
Create Rewrite HintDb py_rw.
#[export] Hint Rewrite sumZ_app : py_rw.

(** Invert an equation between constructors and substitute. *)
Ltac invc H := inversion H; subst; clear H.

(** Decompose every successful chain [x <-? c ;; k = Ok b] among the
    hypotheses into its steps. *)
Ltac inv_obind :=
  repeat match goal with
  | H : obind ?c ?k = Ok _ |- _ =>
      let a := fresh "a" in
      let Ha := fresh "Ha" in
      apply obind_Ok in H as (a & Ha & H)
  end.

(** Split the boolean tests of Z comparisons in the goal into cases with
    their propositional meaning. *)
Ltac case_Zb :=
  repeat match goal with
  | |- context [Z.leb ?a ?b] => destruct (Z.leb_spec a b)
  | |- context [Z.ltb ?a ?b] => destruct (Z.ltb_spec a b)
  | |- context [Z.eqb ?a ?b] => destruct (Z.eqb_spec a b)
  end.
