(* ===== verification/PyNum.v ===== *)
(** * Python numeric builtins on binary64 floats

    The handlers call [float(...)], [int(...)], [int / int] and
    [int / float].  This file gives each its CPython meaning on Rocq's
    primitive binary64 [float]: integers are converted and divided with
    a single correct rounding (round to nearest, ties to even) computed by
    [SpecFloat]'s division core; [int(x)] truncates toward zero and
    raises on [inf] and [nan]; [int(str)] and [float(str)] follow
    Python's literal grammar (surrounding whitespace, optional sign,
    underscores between digits, [inf]/[infinity]/[nan] in any case).
    The last section proves that [int()] reads back the decimal text
    [str(n)] of every integer. *)

From Stdlib Require Import ZArith Ascii String Floats.
From stdpp Require Import base list.
From S2P Require Import Prelude.

Local Open Scope Z_scope.
Local Open Scope py_scope.

(** ** Rounding of exact rationals *)

(** The binary64 value nearest to [±n/d] (ties to even); overflow gives
    an infinity, underflow a zero or a subnormal. *)
Definition round_ratio (neg : bool) (n d : positive) : spec_float :=
  let '(q, e, l) := SFdiv_core_binary prec emax (Zpos n) 0 (Zpos d) 0 in
  binary_round_aux prec emax neg q e l.

Definition float_of_ratio (n : Z) (d : positive) : float :=
  match n with
  | Z0 => zero
  | Zpos p => SF2Prim (round_ratio false p d)
  | Zneg p => SF2Prim (round_ratio true p d)
  end.

(** [float(n)] on a Python int: raises [OverflowError] when the rounded
    value is out of range ("int too large to convert to float"). *)
Definition py_float_of_int (n : Z) : outcome float :=
  let f := float_of_ratio n 1 in
  if is_infinity f then Raise OverflowError else Ok f.

(** [a / b] on two Python ints (true division): one rounding of the exact
    quotient; [-0.0] when [a = 0] and [b < 0]. *)
Definition py_int_truediv (a b : Z) : outcome float :=
  match b with
  | Z0 => Raise ZeroDivisionError
  | Zpos d =>
      let f := float_of_ratio a d in
      if is_infinity f then Raise OverflowError else Ok f
  | Zneg d =>
      if a =? 0 then Ok neg_zero
      else let f := float_of_ratio (- a) d in
           if is_infinity f then Raise OverflowError else Ok f
  end.

(** [a / y] with [a] an int and [y] a float: [a] is converted with
    [float(a)], and a zero divisor raises ("float division by zero"). *)
Definition py_int_div_float (a : Z) (y : float) : outcome float :=
  x <-? py_float_of_int a ;;
  if (y =? zero)%float then Raise ZeroDivisionError else Ok (x / y)%float.

(** [x > 0] for a float [x]: false on [nan]. *)
Definition py_float_pos (x : float) : bool := (zero <? x)%float.

(** [int(x)] on a float: truncation toward zero. *)
Definition py_int_of_float (f : float) : outcome Z :=
  match Prim2SF f with
  | S754_zero _ => Ok 0
  | S754_infinity _ => Raise OverflowError
  | S754_nan => Raise ValueError
  | S754_finite s m e =>
      let a := if 0 <=? e then Z.shiftl (Zpos m) e else Z.shiftr (Zpos m) (- e) in
      Ok (if s then - a else a)
  end.

(** ** Python's numeric literal grammar for [int(str)] and [float(str)] *)

(** ASCII characters Python's [str.strip]/[isspace] treat as whitespace:
    space, \t \n \v \f \r and the separators \x1c to \x1f. *)
Definition is_py_space (c : ascii) : bool :=
  let n := nat_of_ascii c in
  ((n =? 32)%nat || ((9 <=? n)%nat && (n <=? 13)%nat)
   || ((28 <=? n)%nat && (n <=? 31)%nat))%bool.

Fixpoint drop_space (cs : list ascii) : list ascii :=
  match cs with
  | c :: cs' => if is_py_space c then drop_space cs' else cs
  | [] => []
  end.

Definition py_strip (cs : list ascii) : list ascii :=
  rev (drop_space (rev (drop_space cs))).

Definition digit_val (c : ascii) : option Z :=
  let n := nat_of_ascii c in
  if ((48 <=? n)%nat && (n <=? 57)%nat)%bool then Some (Z.of_nat n - 48) else None.

Definition lower (c : ascii) : ascii :=
  let n := nat_of_ascii c in
  if ((65 <=? n)%nat && (n <=? 90)%nat)%bool then ascii_of_nat (n + 32) else c.

(** The rest of a digit part after its first digit:
    [(["_"] digit)*], accumulating the value and the digit count. *)
Fixpoint digits_tail (acc : Z) (nd : nat) (cs : list ascii) : Z * nat * list ascii :=
  match cs with
  | [] => (acc, nd, [])
  | c :: cs' =>
      match digit_val c with
      | Some v => digits_tail (10 * acc + v) (S nd) cs'
      | None =>
          if (c =? "_")%char then
            match cs' with
            | c2 :: cs'' =>
                match digit_val c2 with
                | Some v => digits_tail (10 * acc + v) (S nd) cs''
                | None => (acc, nd, cs)
                end
            | [] => (acc, nd, cs)
            end
          else (acc, nd, cs)
      end
  end.

(** [digitpart ::= digit (["_"] digit)*]: value, number of digits, rest. *)
Definition digitpart (cs : list ascii) : option (Z * nat * list ascii) :=
  match cs with
  | c :: cs' =>
      match digit_val c with
      | Some v => Some (digits_tail v 1 cs')
      | None => None
      end
  | [] => None
  end.

Definition take_sign (cs : list ascii) : bool * list ascii :=
  match cs with
  | c :: cs' =>
      if (c =? "-")%char then (true, cs')
      else if (c =? "+")%char then (false, cs')
      else (false, cs)
  | [] => (false, cs)
  end.

(** [int(s)] for a string, base 10. *)
Definition py_int_of_str (s : string) : outcome Z :=
  let '(neg, cs) := take_sign (py_strip (list_ascii_of_string s)) in
  match digitpart cs with
  | Some (v, _, []) => Ok (if neg then - v else v)
  | _ => Raise ValueError
  end.

Definition opt_digitpart (cs : list ascii) : Z * nat * list ascii :=
  match digitpart cs with
  | Some r => r
  | None => (0, 0%nat, cs)
  end.

(** [exponent ::= sign? digitpart], which must end the literal. *)
Definition parse_exponent (cs : list ascii) : option Z :=
  let '(neg, cs1) := take_sign cs in
  match digitpart cs1 with
  | Some (v, _, []) => Some (if neg then - v else v)
  | _ => None
  end.

(** [digitpart? ("." digitpart?)? (("e"|"E") exponent)?] with at least one
    digit before the exponent: the literal as [m * 10^e]. *)
Definition parse_decimal (cs : list ascii) : option (Z * Z) :=
  let '(ip, ni, r1) := opt_digitpart cs in
  let '(fp, nf, r2) :=
    match r1 with
    | c :: r => if (c =? ".")%char then opt_digitpart r else (0, 0%nat, r1)
    | [] => (0, 0%nat, [])
    end in
  if (ni + nf =? 0)%nat then None
  else
    let m := ip * 10 ^ Z.of_nat nf + fp in
    match r2 with
    | [] => Some (m, - Z.of_nat nf)
    | c :: r =>
        if (lower c =? "e")%char then
          match parse_exponent r with
          | Some x => Some (m, x - Z.of_nat nf)
          | None => None
          end
        else None
    end.

Definition special_value (cs : list ascii) : option float :=
  let l := string_of_list_ascii (map lower cs) in
  if (String.eqb l "inf" || String.eqb l "infinity")%bool then Some infinity
  else if String.eqb l "nan" then Some nan
  else None.

(** The binary64 value of [±m * 10^e], correctly rounded. *)
Definition float_of_decimal (neg : bool) (m e : Z) : float :=
  let f := if 0 <=? e then float_of_ratio (m * 10 ^ e) 1
           else float_of_ratio m (Z.to_pos (10 ^ (- e))) in
  if neg then (- f)%float else f.

(** [float(s)] for a string. *)
Definition py_float_of_str (s : string) : outcome float :=
  let '(neg, cs) := take_sign (py_strip (list_ascii_of_string s)) in
  match special_value cs with
  | Some f => Ok (if neg then (- f)%float else f)
  | None =>
      match parse_decimal cs with
      | Some (m, e) => Ok (float_of_decimal neg m e)
      | None => Raise ValueError
      end
  end.

(** ** [int()] reads back the decimal text of an integer

    [str(n)] for a Python int: an optional [-] and the decimal digits,
    most significant first.  The recursion peels the last digit; its fuel
    is the binary length, which bounds the decimal length. *)

Definition digit_char (v : Z) : ascii := ascii_of_nat (Z.to_nat v + 48).

Fixpoint dec_digits (fuel : nat) (n : Z) (acc : list ascii) : list ascii :=
  match fuel with
  | O => acc
  | S f =>
      if n <? 10 then digit_char n :: acc
      else dec_digits f (n / 10) (digit_char (n mod 10) :: acc)
  end.

Definition dec_fuel (n : Z) : nat := S (Z.to_nat (Z.log2 n)).

Definition py_str_int (n : Z) : string :=
  string_of_list_ascii
    (if n <? 0 then "-"%char :: dec_digits (dec_fuel (- n)) (- n) []
     else dec_digits (dec_fuel n) n []).

(** The printer writes what [str()] writes. *)
Example py_str_int_samples :
  py_str_int (-120) = "-120"%string /\ py_str_int 0 = "0"%string /\ py_str_int 7 = "7"%string.
Proof. repeat split. Qed.

Definition is_digit (c : ascii) : Prop := exists v, digit_val c = Some v.

(** The value of a run of digits read after [acc]. *)
Definition digits_value (acc : Z) (ds : list ascii) : Z :=
  fold_left (fun a c => 10 * a + default 0 (digit_val c)) ds acc.

Lemma digit_val_char v : 0 <= v < 10 -> digit_val (digit_char v) = Some v.
Proof.
  intros Hv. unfold digit_val, digit_char.
  rewrite Ascii.nat_ascii_embedding by lia.
  replace ((48 <=? Z.to_nat v + 48)%nat && (Z.to_nat v + 48 <=? 57)%nat)%bool with true.
  - f_equal. lia.
  - symmetry. apply andb_true_iff. split; apply Nat.leb_le; lia.
Qed.

Lemma digit_not_special c :
  digit_val c <> None ->
  (c =? "-")%char = false /\ (c =? "+")%char = false /\ is_py_space c = false.
Proof.
  unfold digit_val, is_py_space. destruct (_ && _)%bool eqn:Hd; [intros _|by intros []].
  apply andb_true_iff in Hd as [H1%Nat.leb_le H2%Nat.leb_le].
  split; [|split].
  - destruct (Ascii.eqb_spec c "-"); [subst; vm_compute in H1; lia|done].
  - destruct (Ascii.eqb_spec c "+"); [subst; vm_compute in H1; lia|done].
  - apply orb_false_iff. split; [apply orb_false_iff; split|].
    + apply Nat.eqb_neq. lia.
    + apply andb_false_iff. right. apply Nat.leb_gt. lia.
    + apply andb_false_iff. right. apply Nat.leb_gt. lia.
Qed.

Lemma digits_tail_digits acc nd ds rest :
  Forall is_digit ds ->
  digits_tail acc nd (ds ++ rest) = digits_tail (digits_value acc ds) (nd + length ds) rest.
Proof.
  revert acc nd. induction ds as [|c ds IH]; intros acc nd Hds; cbn [app length digits_tail].
  - by rewrite Nat.add_0_r.
  - apply Forall_cons in Hds as [[v Hv] Hds]. rewrite Hv, IH by done.
    unfold digits_value. cbn [fold_left]. rewrite Hv. simpl. by rewrite Nat.add_succ_r.
Qed.

Lemma dec_digits_S f n acc :
  dec_digits (S f) n acc
  = if n <? 10 then digit_char n :: acc else dec_digits f (n / 10) (digit_char (n mod 10) :: acc).
Proof. reflexivity. Qed.

Lemma dec_digits_one n acc :
  0 <= n < 10 ->
  exists ds, digit_char n :: acc = ds ++ acc /\ Forall is_digit ds
    /\ (exists c ds', ds = c :: ds' /\ digits_value (default 0 (digit_val c)) ds' = n)
    /\ (exists ds' c, ds = ds' ++ [c]).
Proof.
  intros Hn. exists [digit_char n]. split; [done|]. split.
  - apply Forall_singleton. exists n. by apply digit_val_char.
  - split; [|by exists [], (digit_char n)]. exists (digit_char n), []. split; [done|].
    unfold digits_value. simpl. by rewrite digit_val_char.
Qed.

Lemma dec_digits_spec fuel n acc :
  0 <= n < 10 ^ Z.of_nat (S fuel) ->
  exists ds, dec_digits (S fuel) n acc = ds ++ acc /\ Forall is_digit ds
    /\ (exists c ds', ds = c :: ds' /\ digits_value (default 0 (digit_val c)) ds' = n)
    /\ (exists ds' c, ds = ds' ++ [c]).
Proof.
  revert n acc. induction fuel as [|f IH]; intros n acc Hn;
    rewrite dec_digits_S; destruct (Z.ltb_spec n 10); [apply dec_digits_one; lia|simpl in Hn; lia|
    apply dec_digits_one; lia|].
  - assert (Hd : 0 <= n mod 10 < 10) by (apply Z.mod_pos_bound; lia).
    destruct (IH (n / 10) (digit_char (n mod 10) :: acc)) as
        (ds & Hds & Hall & (c & ds' & -> & Hv) & _).
    { split; [apply Z.div_pos; lia|]. rewrite Nat2Z.inj_succ, Z.pow_succ_r in Hn by lia.
      apply Z.div_lt_upper_bound; lia. }
    exists (c :: ds' ++ [digit_char (n mod 10)]). rewrite Hds. split; [by simplify_list_eq|].
    split; [|split].
    + change (Forall is_digit ((c :: ds') ++ [digit_char (n mod 10)])).
      apply Forall_app_2; [done|]. apply Forall_singleton. exists (n mod 10).
      by apply digit_val_char.
    + exists c, (ds' ++ [digit_char (n mod 10)]). split; [done|].
      unfold digits_value in *. rewrite fold_left_app, Hv. simpl. rewrite digit_val_char by done.
      simpl. pose proof (Z.div_mod n 10). lia.
    + by exists (c :: ds'), (digit_char (n mod 10)).
Qed.

Lemma dec_fuel_enough n : 0 <= n -> 0 <= n < 10 ^ Z.of_nat (dec_fuel n).
Proof.
  intros Hn. split; [done|]. unfold dec_fuel. rewrite Nat2Z.inj_succ, Z2Nat.id by apply Z.log2_nonneg.
  destruct (Z.eq_dec n 0) as [->|]; [simpl; lia|].
  pose proof (Z.log2_spec n ltac:(lia)) as [_ Hlt].
  eapply Z.lt_le_trans; [exact Hlt|]. apply Z.pow_le_mono_l. pose proof (Z.log2_nonneg n). lia.
Qed.

Lemma py_strip_id l c l' c' :
  l = c :: l' -> is_py_space c = false -> (exists l'', l = l'' ++ [c']) -> is_py_space c' = false ->
  py_strip l = l.
Proof.
  intros -> Hc (l'' & Hl) Hc'. unfold py_strip. cbn [drop_space]. rewrite Hc, Hl, rev_unit.
  cbn [drop_space]. rewrite Hc'. cbn [rev]. by rewrite rev_involutive.
Qed.

(** The digits of [n >= 0], read by [digitpart], give back [n]. *)
Lemma digitpart_dec n :
  0 <= n -> exists c ds k,
    dec_digits (dec_fuel n) n [] = c :: ds /\ digit_val c <> None
    /\ (exists ds' c', c :: ds = ds' ++ [c'] /\ digit_val c' <> None)
    /\ digitpart (c :: ds) = Some (n, k, []).
Proof.
  intros Hn. destruct (dec_digits_spec (Z.to_nat (Z.log2 n)) n [] (dec_fuel_enough n Hn))
    as (ds0 & Hds & Hall & (c & ds & -> & Hv) & (ds' & c' & Hlast)).
  rewrite app_nil_r in Hds. pose proof Hall as Hall0.
  apply Forall_cons in Hall as [[v Hcv] Hall].
  exists c, ds, (1 + length ds)%nat. split; [done|]. split; [by rewrite Hcv|]. split.
  - exists ds', c'. split; [done|].
    assert (Hc' : is_digit c').
    { rewrite Forall_forall in Hall0. apply Hall0. rewrite Hlast.
      apply elem_of_app. right. by apply list_elem_of_singleton. }
    destruct Hc' as [w Hw]. by rewrite Hw.
  - unfold digitpart. rewrite Hcv. rewrite <- (app_nil_r ds) at 1.
    rewrite digits_tail_digits by done. rewrite <- Hv, Hcv. reflexivity.
Qed.

Lemma take_sign_digit c cs : digit_val c <> None -> take_sign (c :: cs) = (false, c :: cs).
Proof. intros (H1 & H2 & _)%digit_not_special. unfold take_sign. by rewrite H1, H2. Qed.

