(* ===== verification/Json.v ===== *)
(** * JSON request bodies and the Python operations applied to them

    [request.json] is the body decoded by Python's [json] module: [null],
    booleans, unbounded ints, floats (including the [NaN] and [Infinity]
    literals the decoder accepts), strings, lists and objects.  An object
    is kept as its list of members in order; a repeated key is looked up
    at its last occurrence, as the decoder's dict keeps the last value.

    [create_product] applies to the body Python's truthiness ([not data]),
    the [in] operator ([field in data]), subscripting ([data['sku']]) and
    the coercions [float(...)] and [int(...)]: this file gives each its
    Python meaning on every kind of value, errors included. *)

From Stdlib Require Import ZArith Ascii String Floats.
From stdpp Require Import base list strings.
From S2P Require Import Prelude PyNum.

Local Open Scope Z_scope.
Local Open Scope py_scope.
Local Set Warnings "-register-all -clear-no-such-hyp".

Inductive jvalue :=
| JNull
| JBool (b : bool)
| JInt (z : Z)
| JFloat (f : float)
| JStr (s : string)
| JArr (vs : list jvalue)
| JObj (kvs : list (string * jvalue)).

(** [bool(v)]: [None], [False], zero, the empty string, list and dict are
    false; a float is false only when it equals [0.0] ([nan] is true). *)
Definition py_truthy (v : jvalue) : bool :=
  match v with
  | JNull => false
  | JBool b => b
  | JInt z => negb (z =? 0)
  | JFloat f => negb (f =? zero)%float
  | JStr s => negb (String.eqb s "")
  | JArr [] | JObj [] => false
  | JArr (_ :: _) | JObj (_ :: _) => true
  end.

Fixpoint is_prefix (p s : list ascii) : bool :=
  match p, s with
  | [], _ => true
  | c :: p', d :: s' => (Ascii.eqb c d && is_prefix p' s')%bool
  | _ :: _, [] => false
  end.

Fixpoint is_substring (p s : list ascii) : bool :=
  (is_prefix p s ||
   match s with
   | [] => false
   | _ :: s' => is_substring p s'
   end)%bool.

(** [key in v] for a string [key]: membership of the keys of a dict, of
    the elements of a list (only an equal string matches), substring of a
    string; any other value is not iterable and raises [TypeError]. *)
Definition py_contains (key : string) (v : jvalue) : outcome bool :=
  match v with
  | JObj kvs => Ok (existsb (fun kv => String.eqb kv.1 key) kvs)
  | JArr vs =>
      Ok (existsb (fun x => match x with JStr s => String.eqb s key | _ => false end) vs)
  | JStr s => Ok (is_substring (list_ascii_of_string key) (list_ascii_of_string s))
  | JNull | JBool _ | JInt _ | JFloat _ => Raise TypeError
  end.

Definition lookup_last (key : string) (kvs : list (string * jvalue)) : option jvalue :=
  fold_left (fun acc kv => if String.eqb kv.1 key then Some kv.2 else acc) kvs None.

(** [v[key]] for a string [key]: a dict lookup ([KeyError] when absent);
    lists and strings need integer indices and the scalars are not
    subscriptable, so all of them raise [TypeError]. *)
Definition py_getitem (v : jvalue) (key : string) : outcome jvalue :=
  match v with
  | JObj kvs =>
      match lookup_last key kvs with
      | Some x => Ok x
      | None => Raise KeyError
      end
  | _ => Raise TypeError
  end.

(** [float(v)]. *)
Definition py_float (v : jvalue) : outcome float :=
  match v with
  | JNull => Raise TypeError
  | JBool b => Ok (if b then one else zero)
  | JInt z => py_float_of_int z
  | JFloat f => Ok f
  | JStr s => py_float_of_str s
  | JArr _ | JObj _ => Raise TypeError
  end.

(** [int(v)]. *)
Definition py_int (v : jvalue) : outcome Z :=
  match v with
  | JNull => Raise TypeError
  | JBool b => Ok (if b then 1 else 0)
  | JInt z => Ok z
  | JFloat f => py_int_of_float f
  | JStr s => py_int_of_str s
  | JArr _ | JObj _ => Raise TypeError
  end.

(** ** Lemmas on the operations *)

Lemma py_getitem_obj kvs key :
  py_getitem (JObj kvs) key
  = match lookup_last key kvs with Some x => Ok x | None => Raise KeyError end.
Proof. reflexivity. Qed.

#[export] Hint Rewrite py_getitem_obj : py_rw.

Lemma py_contains_obj key kvs :
  py_contains key (JObj kvs) = Ok (bool_decide (key ∈ kvs.*1)).
Proof.
  simpl. f_equal. induction kvs as [|[k v] kvs IH]; simpl; [done|].
  rewrite IH. destruct (String.eqb_spec k key) as [->|Hne].
  - symmetry. apply bool_decide_eq_true. constructor.
  - simpl. apply bool_decide_ext. rewrite elem_of_cons. naive_solver.
Qed.

Lemma lookup_last_Some_in key kvs x :
  lookup_last key kvs = Some x -> key ∈ kvs.*1.
Proof.
  unfold lookup_last.
  assert (Hgen : forall acc, fold_left (fun acc kv => if String.eqb kv.1 key then Some kv.2 else acc) kvs acc = Some x ->
                 acc = Some x \/ key ∈ kvs.*1).
  { induction kvs as [|[k v] kvs IH]; simpl; intros acc H; [by left|].
    destruct (IH _ H) as [Hacc|Hin]; [|right; apply elem_of_cons; by right].
    destruct (String.eqb_spec k key) as [->|]; [right; constructor | by left]. }
  intros H. destruct (Hgen None H) as [[=]|]; done.
Qed.

Lemma lookup_last_in_Some key kvs :
  key ∈ kvs.*1 -> exists x, lookup_last key kvs = Some x.
Proof.
  unfold lookup_last.
  assert (Hgen : forall acc, key ∈ kvs.*1 \/ is_Some acc ->
            is_Some (fold_left (fun acc kv => if String.eqb kv.1 key then Some kv.2 else acc) kvs acc)).
  { induction kvs as [|[k v] kvs IH]; simpl; intros acc [Hin|Hs]; try done.
    - by apply elem_of_nil in Hin.
    - apply IH. apply elem_of_cons in Hin as [->|Hin]; [rewrite String.eqb_refl; right; eauto | by left].
    - apply IH. right. destruct (String.eqb k key); eauto. }
  intros H. destruct (Hgen None (or_introl H)) as [x Hx]. eauto.
Qed.
