(* ===== verification/Schema.v ===== *)
(** * The relational schema both handlers use

    The ORM models (Product, Inventory, Warehouse, ProductType, Supplier,
    SalesActivity) are not in [src/]; they are modelled from the data
    model of the spec (section 3): a table is the list of its rows in
    insertion order, and the database is the record of the six tables.

    The database enforces the constraints the spec names: primary keys,
    a globally unique SKU, the foreign keys of Product and Inventory, and
    one Inventory row per (product, warehouse) pair.  An INSERT that
    violates one raises [IntegrityError]; a row inserted by the ORM
    receives the id [1 + max] of its table.  [wf_db] collects the
    constraints as the invariant of a database. *)

From Stdlib Require Import ZArith String Floats.
From stdpp Require Import base list strings.
From S2P Require Import Prelude.

Local Open Scope Z_scope.

Record product := mkProduct {
  p_id : Z;
  p_name : string;
  p_sku : string;
  p_price : float;
  p_warehouse_id : Z;
  p_product_type_id : option Z;
  p_supplier_id : option Z
}.

Record inventory := mkInventory {
  i_id : Z;
  i_product_id : Z;
  i_warehouse_id : Z;
  i_quantity : Z
}.

Record warehouse := mkWarehouse {
  w_id : Z;
  w_name : string;
  w_company_id : Z
}.

Record product_type := mkProductType {
  t_id : Z;
  t_low_stock_threshold : Z
}.

Record supplier := mkSupplier {
  s_id : Z;
  s_name : string;
  s_contact_email : string
}.

(** [sale_date] is a timestamp in microseconds. *)
Record sales_activity := mkSalesActivity {
  a_id : Z;
  a_product_id : Z;
  a_warehouse_id : Z;
  a_sale_date : Z;
  a_quantity_sold : Z
}.

Record db := mkDb {
  products : list product;
  inventories : list inventory;
  warehouses : list warehouse;
  product_types : list product_type;
  suppliers : list supplier;
  sales : list sales_activity
}.

(** ** Ids and constraint checks *)

(** The id the database gives the next row of a table. *)
Definition next_id (ids : list Z) : Z := 1 + fold_right Z.max 0 ids.

Definition has_warehouse (d : db) (wid : Z) : bool :=
  existsb (fun w => w_id w =? wid) (warehouses d).

Definition opt_ref_ok {A} (key : A -> Z) (rows : list A) (r : option Z) : bool :=
  match r with
  | None => true
  | Some k => existsb (fun x => key x =? k) rows
  end.

(** The foreign keys of a product row. *)
Definition product_refs_ok (d : db) (p : product) : bool :=
  has_warehouse d (p_warehouse_id p)
  && opt_ref_ok t_id (product_types d) (p_product_type_id p)
  && opt_ref_ok s_id (suppliers d) (p_supplier_id p).

(** The foreign keys of an inventory row. *)
Definition inventory_refs_ok (d : db) (i : inventory) : bool :=
  existsb (fun p => p_id p =? i_product_id i) (products d)
  && has_warehouse d (i_warehouse_id i).

Definition sku_taken (d : db) (sku : string) : bool :=
  existsb (fun p => String.eqb (p_sku p) sku) (products d).

Definition product_insert_ok (d : db) (p : product) : bool :=
  negb (existsb (fun q => p_id q =? p_id p) (products d))
  && negb (sku_taken d (p_sku p))
  && product_refs_ok d p.

Definition inventory_insert_ok (d : db) (i : inventory) : bool :=
  negb (existsb (fun j => i_id j =? i_id i) (inventories d))
  && negb (existsb (fun j => (i_product_id j =? i_product_id i)
                             && (i_warehouse_id j =? i_warehouse_id i)) (inventories d))
  && inventory_refs_ok d i.

Definition with_products (d : db) (ps : list product) : db :=
  mkDb ps (inventories d) (warehouses d) (product_types d) (suppliers d) (sales d).

Definition with_inventories (d : db) (invs : list inventory) : db :=
  mkDb (products d) invs (warehouses d) (product_types d) (suppliers d) (sales d).

(** [INSERT INTO products ...]: the row is appended, or the statement
    fails with [IntegrityError]. *)
Definition insert_product (d : db) (p : product) : outcome db :=
  if product_insert_ok d p then Ok (with_products d (products d ++ [p]))
  else Raise IntegrityError.

Definition insert_inventory (d : db) (i : inventory) : outcome db :=
  if inventory_insert_ok d i then Ok (with_inventories d (inventories d ++ [i]))
  else Raise IntegrityError.

(** ** The integrity invariant *)

Definition wf_db (d : db) : Prop :=
  NoDup (p_id <$> products d)
  /\ NoDup (p_sku <$> products d)
  /\ Forall (fun p => product_refs_ok d p = true) (products d)
  /\ NoDup (i_id <$> inventories d)
  /\ NoDup ((fun i => (i_product_id i, i_warehouse_id i)) <$> inventories d)
  /\ Forall (fun i => inventory_refs_ok d i = true) (inventories d)
  /\ NoDup (w_id <$> warehouses d)
  /\ NoDup (t_id <$> product_types d)
  /\ NoDup (s_id <$> suppliers d).

#[export] Instance wf_db_dec d : Decision (wf_db d).
Proof. unfold wf_db. apply _. Defined.

(** ** Lemmas: membership tests and preservation of [wf_db] by inserts *)

Lemma existsb_key_in {A K} (eqb : K -> K -> bool)
      (Heqb : forall a b, eqb a b = true <-> a = b) (f : A -> K) (l : list A) (k : K) :
  existsb (fun x => eqb (f x) k) l = true <-> k ∈ f <$> l.
Proof.
  rewrite existsb_exists, list_elem_of_fmap.
  split.
  - intros (x & Hin & Hb). apply Heqb in Hb. exists x. split; [done|]. by apply list_elem_of_In.
  - intros (x & -> & Hin). exists x. split; [by apply list_elem_of_In|]. by apply Heqb.
Qed.

Lemma existsb_Z_in {A} (f : A -> Z) l k :
  existsb (fun x => f x =? k) l = true <-> k ∈ f <$> l.
Proof. apply existsb_key_in. apply Z.eqb_eq. Qed.

Lemma existsb_string_in {A} (f : A -> string) l k :
  existsb (fun x => String.eqb (f x) k) l = true <-> k ∈ f <$> l.
Proof. apply existsb_key_in. apply String.eqb_eq. Qed.

Lemma next_id_gt ids x : x ∈ ids -> x < next_id ids.
Proof.
  unfold next_id. induction ids as [|y ids IH]; intros Hin; [by apply elem_of_nil in Hin|].
  simpl. apply elem_of_cons in Hin as [->|Hin]; [lia|]. specialize (IH Hin). lia.
Qed.

Lemma next_id_fresh ids : next_id ids ∉ ids.
Proof. intros Hin. apply next_id_gt in Hin. lia. Qed.

Lemma NoDup_snoc {A} (l : list A) (x : A) : NoDup l -> x ∉ l -> NoDup (l ++ [x]).
Proof.
  intros Hl Hx. apply NoDup_app. split; [done|]. split; [|apply NoDup_singleton].
  intros y Hy Hy'. apply list_elem_of_singleton in Hy'. by subst.
Qed.

Lemma product_refs_ok_with_products d ps p :
  product_refs_ok (with_products d ps) p = product_refs_ok d p.
Proof. reflexivity. Qed.

Lemma product_refs_ok_with_inventories d invs p :
  product_refs_ok (with_inventories d invs) p = product_refs_ok d p.
Proof. reflexivity. Qed.

Lemma inventory_refs_ok_snoc_product d p i :
  inventory_refs_ok d i = true ->
  inventory_refs_ok (with_products d (products d ++ [p])) i = true.
Proof.
  unfold inventory_refs_ok, has_warehouse. simpl.
  rewrite !andb_true_iff, existsb_app. intros [H1 H2]. by rewrite H1.
Qed.

Lemma inventory_refs_ok_with_inventories d invs i :
  inventory_refs_ok (with_inventories d invs) i = inventory_refs_ok d i.
Proof. reflexivity. Qed.

Theorem insert_product_wf d p d' :
  wf_db d -> insert_product d p = Ok d' -> wf_db d'.
Proof.
  unfold insert_product, product_insert_ok, sku_taken.
  destruct (negb _ && negb _ && _) eqn:Hok; [|discriminate].
  intros (Hid & Hsku & Hpfk & Hiid & Hpair & Hifk & Hw & Ht & Hs) [= <-].
  apply andb_true_iff in Hok as [[Hnid Hnsku]%andb_true_iff Hrefs].
  apply negb_true_iff in Hnid, Hnsku.
  repeat split; simpl; rewrite ?fmap_app; try done.
  - apply NoDup_snoc; [done|]. rewrite <- existsb_Z_in. by rewrite Hnid.
  - apply NoDup_snoc; [done|]. rewrite <- existsb_string_in. by rewrite Hnsku.
  - apply Forall_app. split; [|by apply Forall_singleton].
    eapply Forall_impl; [exact Hpfk|]. done.
  - eapply Forall_impl; [exact Hifk|]. intros i. apply inventory_refs_ok_snoc_product.
Qed.

Theorem insert_inventory_wf d i d' :
  wf_db d -> insert_inventory d i = Ok d' -> wf_db d'.
Proof.
  unfold insert_inventory, inventory_insert_ok.
  destruct (negb _ && negb _ && _) eqn:Hok; [|discriminate].
  intros (Hid & Hsku & Hpfk & Hiid & Hpair & Hifk & Hw & Ht & Hs) [= <-].
  apply andb_true_iff in Hok as [[Hnid Hnpair]%andb_true_iff Hrefs].
  apply negb_true_iff in Hnid, Hnpair.
  repeat split; simpl; rewrite ?fmap_app; try done.
  - apply NoDup_snoc; [done|]. rewrite <- existsb_Z_in. by rewrite Hnid.
  - apply NoDup_snoc; [done|]. intros Hin.
    apply list_elem_of_fmap in Hin as (j & Hj & Hin).
    assert (Hex : existsb (fun j => (i_product_id j =? i_product_id i)
                            && (i_warehouse_id j =? i_warehouse_id i)) (inventories d) = true).
    { apply existsb_exists. exists j. split; [by apply list_elem_of_In|].
      injection Hj as -> ->. by rewrite !Z.eqb_refl. }
    by rewrite Hex in Hnpair.
  - apply Forall_app. split; [done|]. by apply Forall_singleton.
Qed.

(** ** A sample database

    Timestamps are in microseconds; [sample_time] is day 100. *)

Definition sample_time : Z := 8640000000000.

Definition sample_widget : product := mkProduct 1 "Widget" "W-1" 2.5%float 1 (Some 1) (Some 1).
Definition sample_inv1 : inventory := mkInventory 1 1 1 5.
Definition sample_main : warehouse := mkWarehouse 1 "Main" 7.
Definition sample_type : product_type := mkProductType 1 10.
Definition sample_acme : supplier := mkSupplier 1 "Acme" "orders@acme.test".
Definition sample_sale1 : sales_activity := mkSalesActivity 1 1 1 (sample_time - 86400000000) 40.

(** Company 7 owns warehouse 1; company 8 owns warehouse 2.  Item (1, 1)
    is low with 60 units sold recently; item (2, 1) only sold 40 days
    ago; item (1, 2) is above its threshold; item (3, 2) is low in
    company 8. *)
Definition sample_db : db :=
  mkDb
    [sample_widget; mkProduct 2 "Gadget" "G-1" 1%float 1 (Some 1) None;
     mkProduct 3 "Bolt" "B-1" 1%float 2 (Some 1) None]
    [sample_inv1; mkInventory 2 2 1 3; mkInventory 3 3 2 1; mkInventory 4 1 2 50]
    [sample_main; mkWarehouse 2 "North" 8]
    [sample_type]
    [sample_acme]
    [sample_sale1; mkSalesActivity 2 1 1 (sample_time - 2 * 86400000000) 20;
     mkSalesActivity 3 2 1 (sample_time - 40 * 86400000000) 9;
     mkSalesActivity 4 3 2 sample_time 1].

Lemma sample_db_wf : wf_db sample_db.
Proof. apply (bool_decide_unpack _). vm_compute. exact I. Qed.
