(* ===== verification/Session.v ===== *)
(** * The SQLAlchemy session of [create_product]

    [create_product] threads one database session ([db.session]) through
    its statements.  SQLAlchemy is a library the sources only call; its
    behaviour is modelled from the spec (sections 4.1, 5 and 7) as a
    state and exception monad [M] over a [session]:

    - [s_committed] is the committed database, what the request leaves
      behind; [s_work] is the transaction's view of it, with the rows
      flushed so far;
    - [add] puts an object among the pending ones and returns a handle
      standing for the Python object; [flush] inserts the pending objects
      in order, assigns their ids and checks the constraints (an
      [IntegrityError] rolls the transaction back); [obj_id] reads
      [obj.id] (None until flushed); [commit] flushes and makes the
      working view the committed database; [rollback] discards it;
    - queries autoflush and read the working view;
    - [try_except] is Python's [try]/[except] over this monad.

    A JSON value is bound to a column strictly: a string to a text column,
    an integer to an integer column, anything else raises a non-integrity
    [DBAPIError] (see the header of [Prelude]). *)

From Stdlib Require Import ZArith String Floats.
From stdpp Require Import base list strings.
From S2P Require Import Prelude PyNum Json Schema.

Local Open Scope Z_scope.
Local Open Scope py_scope.

(** The attribute values of an object added to the session. *)
Inductive pending :=
| PendProduct (name sku : jvalue) (price : float) (warehouse_id : jvalue)
| PendInventory (product_id : option Z) (warehouse_id : jvalue) (quantity : Z).

Record session := mkSession {
  s_committed : db;
  s_work : db;
  s_pending : list (nat * pending);
  s_ids : list (nat * Z);
  s_next_handle : nat
}.

(** ** The monad *)

Definition M (A : Type) : Type := session -> outcome A * session.

Definition ret {A} (a : A) : M A := fun s => (Ok a, s).

Definition sbind {A B} (c : M A) (k : A -> M B) : M B :=
  fun s =>
    match c s with
    | (Ok a, s') => k a s'
    | (Raise e, s') => (Raise e, s')
    end.

Notation "x <- c ;; k" := (sbind c (fun x => k))
  (at level 100, c at next level, right associativity) : py_scope.
Notation "c ;; k" := (sbind c (fun _ => k))
  (at level 100, right associativity) : py_scope.

(** A pure computation, raising where it raises. *)
Definition lift {A} (o : outcome A) : M A := fun s => (o, s).

(** [try: body except e: handler(e)] *)
Definition try_except {A} (body : M A) (handler : py_exc -> M A) : M A :=
  fun s =>
    match body s with
    | (Ok a, s') => (Ok a, s')
    | (Raise e, s') => handler e s'
    end.

(** ** Binding values to columns *)

Definition bind_text (v : jvalue) : outcome string :=
  match v with
  | JStr s => Ok s
  | _ => Raise DBAPIError
  end.

Definition bind_int (v : jvalue) : outcome Z :=
  match v with
  | JInt z => Ok z
  | _ => Raise DBAPIError
  end.

(** ** Session operations *)

(** [db.session.add(obj)]: the handle of the new pending object. *)
Definition add (o : pending) : M nat :=
  fun s =>
    let h := s_next_handle s in
    (Ok h, mkSession (s_committed s) (s_work s) (s_pending s ++ [(h, o)]) (s_ids s) (S h)).

(** The INSERT of one pending object: its row and its new id. *)
Definition flush_one (d : db) (o : pending) : outcome (db * Z) :=
  match o with
  | PendProduct name sku price wid =>
      n <-? bind_text name ;;
      k <-? bind_text sku ;;
      w <-? bind_int wid ;;
      let id := next_id (p_id <$> products d) in
      d' <-? insert_product d (mkProduct id n k price w None None) ;;
      Ok (d', id)
  | PendInventory pid wid q =>
      p <-? (match pid with Some p => Ok p | None => Raise IntegrityError end) ;;
      w <-? bind_int wid ;;
      let id := next_id (i_id <$> inventories d) in
      d' <-? insert_inventory d (mkInventory id p w q) ;;
      Ok (d', id)
  end.

Fixpoint flush_all (d : db) (ps : list (nat * pending)) : outcome (db * list (nat * Z)) :=
  match ps with
  | [] => Ok (d, [])
  | (h, o) :: ps' =>
      r1 <-? flush_one d o ;;
      r2 <-? flush_all r1.1 ps' ;;
      Ok (r2.1, (h, r1.2) :: r2.2)
  end.

(** [db.session.flush()]: on a failed INSERT the transaction is rolled
    back and the exception propagates. *)
Definition flush : M unit :=
  fun s =>
    match flush_all (s_work s) (s_pending s) with
    | Ok (d', ids) =>
        (Ok tt, mkSession (s_committed s) d' [] (s_ids s ++ ids) (s_next_handle s))
    | Raise e =>
        (Raise e, mkSession (s_committed s) (s_committed s) [] (s_ids s) (s_next_handle s))
    end.

Fixpoint lookup_handle (h : nat) (ids : list (nat * Z)) : option Z :=
  match ids with
  | [] => None
  | (h', id) :: ids' => if Nat.eqb h h' then Some id else lookup_handle h ids'
  end.

(** [obj.id] *)
Definition obj_id (h : nat) : M (option Z) := fun s => (Ok (lookup_handle h (s_ids s)), s).

(** [db.session.commit()] *)
Definition commit : M unit :=
  flush ;;
  (fun s => (Ok tt, mkSession (s_work s) (s_work s) [] (s_ids s) (s_next_handle s))).

(** [db.session.rollback()] *)
Definition rollback : M unit :=
  fun s => (Ok tt, mkSession (s_committed s) (s_committed s) [] (s_ids s) (s_next_handle s)).

(** [Product.query.filter_by(sku=v).first()]: autoflush, then the first
    product with that SKU in the transaction's view. *)
Definition query_product_by_sku (v : jvalue) : M (option product) :=
  flush ;;
  sku <- lift (bind_text v) ;;
  (fun s => (Ok (List.find (fun p => String.eqb (p_sku p) sku) (products (s_work s))), s)).

(** The session of a new request on the committed database [d]. *)
Definition fresh_session (d : db) : session := mkSession d d [] [] 0.

(** ** Rewriting lemmas for symbolic runs *)

Lemma bind_text_JStr s : bind_text (JStr s) = Ok s.
Proof. reflexivity. Qed.

Lemma bind_int_JInt z : bind_int (JInt z) = Ok z.
Proof. reflexivity. Qed.

#[export] Hint Rewrite bind_text_JStr bind_int_JInt : py_rw.
