(* ===== verification/CreateProduct.v ===== *)
(** * The product creation handler ([create_product])

    [src/fixedApiEnd.py] lines 4-57, statement by statement, in the
    session monad of [Session]:

    - lines 12-14: the body must be truthy and contain the five required
      fields ([field in data] for each, stopping at the first missing
      one); this check is outside the [try], so an exception it raises
      escapes the handler;
    - line 19: the SKU pre-check, an autoflushing query;
    - lines 23-30: the Product object (its attributes evaluated left to
      right: [name], [sku], [float(price)], [warehouse_id]), [add], and
      [flush] to obtain its id;
    - lines 33-41: the Inventory object ([product.id], [warehouse_id],
      [int(initial_quantity)]), [add] and [commit];
    - lines 48-57: the three [except] clauses, each rolling back.

    [run_create] runs the handler on a fresh session over a committed
    database and returns the response (or the escaping exception) and the
    committed database the request leaves. *)

From Stdlib Require Import ZArith String Floats.
From stdpp Require Import base list strings.
From S2P Require Import Prelude PyNum Json Schema Session.

Local Open Scope Z_scope.
Local Open Scope py_scope.

Definition required_fields : list string :=
  ["name"; "sku"; "price"; "warehouse_id"; "initial_quantity"]%string.

(** [all(field in data for field in fields)]: stops at the first field
    that is absent, or at the first exception. *)
Fixpoint all_fields_in (fields : list string) (data : jvalue) : outcome bool :=
  match fields with
  | [] => Ok true
  | f :: fs =>
      b <-? py_contains f data ;;
      if b then all_fields_in fs data else Ok false
  end.

(** A JSON response and its HTTP status. *)
Record response := mkResponse {
  status : Z;
  body : jvalue
}.

Definition error_response (code : Z) (msg : string) : response :=
  mkResponse code (JObj [("error", JStr msg)]%string).

Definition created_response (pid : option Z) : response :=
  mkResponse 201
    (JObj [("message", JStr "Product created successfully");
           ("product_id", match pid with Some id => JInt id | None => JNull end)]%string).

(** The body of the [try] (lines 19-46). *)
Definition create_product_body (data : jvalue) : M response :=
  sku <- lift (py_getitem data "sku") ;;
  existing <- query_product_by_sku sku ;;
  match existing with
  | Some p =>
      ret (error_response 409
             (String.append "Product with SKU '" (String.append (p_sku p) "' already exists")))
  | None =>
      name <- lift (py_getitem data "name") ;;
      sku' <- lift (py_getitem data "sku") ;;
      price <- lift (v <-? py_getitem data "price" ;; py_float v) ;;
      wid <- lift (py_getitem data "warehouse_id") ;;
      h <- add (PendProduct name sku' price wid) ;;
      flush ;;
      pid <- obj_id h ;;
      wid' <- lift (py_getitem data "warehouse_id") ;;
      q <- lift (v <-? py_getitem data "initial_quantity" ;; py_int v) ;;
      add (PendInventory pid wid' q) ;;
      commit ;;
      ret (created_response pid)
  end.

(** The response of each [except] clause. *)
Definition except_response (e : py_exc) : response :=
  match e with
  | ValueError | TypeError =>
      error_response 400 "Invalid data type for price or initial_quantity"
  | IntegrityError =>
      error_response 409 "Database integrity error. SKU might already exist."
  | _ => error_response 500 "An unexpected error occurred."
  end.

(** The three [except] clauses (lines 48-57). *)
Definition create_product_handler (e : py_exc) : M response :=
  rollback ;;
  ret (except_response e).

(** The handler (lines 5-57); [data] is [request.json]. *)
Definition create_product (data : jvalue) : M response :=
  if negb (py_truthy data) then ret (error_response 400 "Missing required fields")
  else
    ok <- lift (all_fields_in required_fields data) ;;
    if negb ok then ret (error_response 400 "Missing required fields")
    else try_except (create_product_body data) create_product_handler.

(** One request on the committed database [d]. *)
Definition run_create (d : db) (data : jvalue) : outcome response * db :=
  let '(r, s) := create_product data (fresh_session d) in (r, s_committed s).

(** ** The contract of spec 4.1 *)

(** All or nothing: either the committed database is unchanged and no
    success is reported (an error response, or an exception escaping the
    handler), or exactly one Product row and one Inventory row for it, in
    the product's warehouse, were committed and the response is 201 with
    the product's id. *)
Definition create_spec (d : db) (r : outcome response) (d' : db) : Prop :=
  (d' = d /\ match r with Ok resp => status resp <> 201 | Raise _ => True end)
  \/ (exists p i, r = Ok (created_response (Some (p_id p)))
        /\ d' = with_inventories (with_products d (products d ++ [p])) (inventories d ++ [i])
        /\ i_product_id i = p_id p /\ i_warehouse_id i = p_warehouse_id p).

(** ** Lemmas on the steps *)

Lemma insert_product_Ok d p d' :
  insert_product d p = Ok d' ->
  product_insert_ok d p = true /\ d' = with_products d (products d ++ [p]).
Proof. unfold insert_product. by case_match; intros; simplify_eq. Qed.

Lemma insert_inventory_Ok d i d' :
  insert_inventory d i = Ok d' ->
  inventory_insert_ok d i = true /\ d' = with_inventories d (inventories d ++ [i]).
Proof. unfold insert_inventory. by case_match; intros; simplify_eq. Qed.

(** The [except] clauses roll back and answer 400, 409 or 500. *)
Lemma create_product_handler_spec e s r s' :
  create_product_handler e s = (r, s') ->
  s_committed s' = s_committed s
  /\ exists resp, r = Ok resp /\ status resp <> 201
     /\ status resp = match e with
                      | ValueError | TypeError => 400
                      | IntegrityError => 409
                      | _ => 500
                      end.
Proof.
  unfold create_product_handler, except_response, sbind, rollback, ret. intros [= <- <-].
  split; [done|]. eexists. split; [done|]. by destruct e.
Qed.

#[local] Arguments py_truthy : simpl never.
#[local] Arguments all_fields_in : simpl never.
#[local] Arguments py_getitem : simpl never.
#[local] Arguments py_float : simpl never.
#[local] Arguments py_int : simpl never.
#[local] Arguments bind_text : simpl never.
#[local] Arguments bind_int : simpl never.
#[local] Arguments insert_product : simpl never.
#[local] Arguments insert_inventory : simpl never.
#[local] Arguments next_id : simpl never.
#[local] Arguments create_product_handler : simpl never.

(** Run the handler symbolically: unfold the session operations and split
    on every step that can fail. *)
Ltac run_create_cases :=
  unfold run_create, create_product, create_product_body, try_except,
    query_product_by_sku, commit, flush, add, obj_id, lift, ret, sbind;
  simpl;
  repeat (case_match; simpl in *; simplify_eq/=).

(** C1: [create_product] implements the all-or-nothing contract of spec
    4.1 on every input: no request leaves a Product without its Inventory
    row, and a failed request leaves the committed database unchanged. *)
Theorem create_refines_spec d data :
  create_spec d (run_create d data).1 (run_create d data).2.
Proof.
  run_create_cases; unfold create_spec.
  all: try (left; split; [done|simpl; lia]).
  all: try match goal with
       | H : create_product_handler _ _ = _ |- _ =>
           apply create_product_handler_spec in H as [-> (resp & -> & Hst & _)];
           by left
       end.
  inv_obind. simplify_eq/=.
  repeat match goal with
         | H : insert_product _ _ = Ok _ |- _ => apply insert_product_Ok in H as [_ ->]
         | H : insert_inventory _ _ = Ok _ |- _ => apply insert_inventory_Ok in H as [_ ->]
         end.
  right. eexists (mkProduct _ _ _ _ _ _ _), (mkInventory _ _ _ _).
  split; [reflexivity|]. split; [reflexivity|]. simpl. split; [by unfold next_id|congruence].
Qed.

(** ** The paths of a request with all five fields *)

(** The body is an object whose [name] and [sku] are strings. *)
Definition request_of (kvs : list (string * jvalue)) (name sku : string)
    (price wid qty : jvalue) : Prop :=
  lookup_last "name" kvs = Some (JStr name)
  /\ lookup_last "sku" kvs = Some (JStr sku)
  /\ lookup_last "price" kvs = Some price
  /\ lookup_last "warehouse_id" kvs = Some wid
  /\ lookup_last "initial_quantity" kvs = Some qty.

Lemma all_fields_in_obj fs kvs :
  all_fields_in fs (JObj kvs) = Ok (forallb (fun f => bool_decide (f ∈ kvs.*1)) fs).
Proof.
  induction fs as [|f fs IH]; [done|].
  unfold all_fields_in; fold all_fields_in. rewrite py_contains_obj. simpl.
  by case_bool_decide.
Qed.

Lemma request_of_check kvs name sku price wid qty :
  request_of kvs name sku price wid qty ->
  py_truthy (JObj kvs) = true /\ all_fields_in required_fields (JObj kvs) = Ok true.
Proof.
  intros (Hn & Hs & Hp & Hw & Hq). split.
  - destruct kvs; [discriminate|done].
  - rewrite all_fields_in_obj. simpl.
    by rewrite !bool_decide_eq_true_2 by (eapply lookup_last_Some_in; eassumption).
Qed.

Lemma find_sku_free d sku :
  sku_taken d sku = false -> List.find (fun p => String.eqb (p_sku p) sku) (products d) = None.
Proof.
  unfold sku_taken. intros H. apply find_all_false. intros p Hp.
  destruct (String.eqb (p_sku p) sku) eqn:E; [|done].
  assert (existsb (fun p => String.eqb (p_sku p) sku) (products d) = true) as Hex
    by (apply existsb_exists; eauto). congruence.
Qed.

Lemma find_sku_taken d sku :
  sku_taken d sku = true ->
  exists p, List.find (fun p => String.eqb (p_sku p) sku) (products d) = Some p /\ p_sku p = sku.
Proof.
  unfold sku_taken. intros (p0 & Hin & Hp0)%existsb_exists.
  destruct (List.find _ _) as [p|] eqn:Hf.
  - exists p. split; [done|]. apply find_some in Hf as [_ Hp]. by apply String.eqb_eq.
  - apply (find_none _ _ Hf) in Hin. congruence.
Qed.

(** The INSERT of the new product: it succeeds exactly when the SKU is
    free and the warehouse exists (the id [1 + max] is always free). *)
Lemma insert_new_product d n s f w :
  sku_taken d s = false ->
  insert_product d (mkProduct (next_id (p_id <$> products d)) n s f w None None)
  = if has_warehouse d w
    then Ok (with_products d (products d ++ [mkProduct (next_id (p_id <$> products d)) n s f w None None]))
    else Raise IntegrityError.
Proof.
  intros Hs. unfold insert_product, product_insert_ok, product_refs_ok. simpl. rewrite Hs.
  replace (existsb _ (products d)) with false.
  - by destruct (has_warehouse d w).
  - symmetry. apply not_true_iff_false. rewrite (existsb_Z_in p_id). apply next_id_fresh.
Qed.

(** The INSERT of the inventory row of a product just inserted with a
    fresh id, in an existing warehouse, succeeds when the inventory rows
    reference existing products. *)
Lemma insert_new_inventory d p w q :
  Forall (fun i => inventory_refs_ok d i = true) (inventories d) ->
  p_id p = next_id (p_id <$> products d) -> has_warehouse d w = true ->
  insert_inventory (with_products d (products d ++ [p]))
    (mkInventory (next_id (i_id <$> inventories d)) (p_id p) w q)
  = Ok (with_inventories (with_products d (products d ++ [p]))
          (inventories d ++ [mkInventory (next_id (i_id <$> inventories d)) (p_id p) w q])).
Proof.
  intros Hfk Hpid Hw. unfold insert_inventory, inventory_insert_ok, inventory_refs_ok, has_warehouse.
  simpl. rewrite existsb_app. simpl. rewrite Z.eqb_refl, orb_true_r.
  unfold has_warehouse in Hw. rewrite Hw.
  replace (existsb (fun j => i_id j =? _) (inventories d)) with false.
  2: { symmetry. apply not_true_iff_false. rewrite (existsb_Z_in i_id). apply next_id_fresh. }
  replace (existsb (fun j => (i_product_id j =? p_id p) && _) (inventories d)) with false; [done|].
  symmetry. apply not_true_iff_false. intros (j & Hj & Hm)%existsb_exists.
  apply andb_true_iff in Hm as [Hm%Z.eqb_eq _].
  rewrite Forall_forall in Hfk. specialize (Hfk j ltac:(by apply list_elem_of_In)).
  unfold inventory_refs_ok in Hfk. apply andb_true_iff in Hfk as [Hfk _].
  apply (existsb_Z_in p_id) in Hfk. rewrite Hm, Hpid in Hfk. by apply next_id_fresh in Hfk.
Qed.

(** Unfold one request down to the steps on the request's values. *)
Ltac run_request :=
  unfold run_create, create_product, create_product_body, try_except,
    query_product_by_sku, commit, flush, add, obj_id, lift, ret, sbind; simpl.

Section ValidRequest.
Context (d : db) (kvs : list (string * jvalue)) (name sku : string) (price wid qty : jvalue).
Hypothesis Hreq : request_of kvs name sku price wid qty.
Hypothesis Hfree : sku_taken d sku = false.

(** Everything up to the INSERT of the product is determined by the
    request: the price is converted, then the row is flushed. *)
Lemma run_create_valid :
  run_create d (JObj kvs)
  = match py_float price with
    | Raise e => (Ok (except_response e), d)
    | Ok f =>
        match bind_int wid with
        | Raise e => (Ok (except_response e), d)
        | Ok w =>
            if has_warehouse d w then
              let p := mkProduct (next_id (p_id <$> products d)) name sku f w None None in
              match py_int qty with
              | Raise e => (Ok (except_response e), d)
              | Ok q =>
                  let d1 := with_products d (products d ++ [p]) in
                  match insert_inventory d1 (mkInventory (next_id (i_id <$> inventories d1)) (p_id p) w q) with
                  | Ok d2 => (Ok (created_response (Some (p_id p))), d2)
                  | Raise e => (Ok (except_response e), d)
                  end
              end
            else (Ok (except_response IntegrityError), d)
        end
    end.
Proof.
  destruct Hreq as (Hn & Hs & Hp & Hw & Hq).
  destruct (request_of_check _ _ _ _ _ _ Hreq) as [Ht Ha].
  run_request. rewrite Ht, Ha. simpl.
  rewrite !py_getitem_obj, Hs. simpl. rewrite find_sku_free by done. simpl.
  rewrite Hn, Hp, Hw, Hq. simpl.
  destruct (py_float price) as [f|e]; simpl; [|done].
  rewrite ?bind_text_JStr. simpl. destruct (bind_int wid) as [w|e] eqn:Hbw; simpl; [|done].
  rewrite insert_new_product by done.
  destruct (has_warehouse d w); simpl; [|done].
  destruct (py_int qty) as [q|e]; simpl; [|done].
  rewrite ?Nat.eqb_refl. simpl. rewrite ?py_getitem_obj, ?Hw. simpl. rewrite Hbw. simpl.
  by destruct (insert_inventory _ _).
Qed.

(** C6: a price that [float()] rejects with [ValueError] or [TypeError]
    (a non-numeric string, [null], a list or an object) is answered 400
    with the "Invalid data type" message, and nothing is written. *)
Theorem create_invalid_price e :
  e = ValueError \/ e = TypeError -> py_float price = Raise e ->
  run_create d (JObj kvs)
  = (Ok (error_response 400 "Invalid data type for price or initial_quantity"), d).
Proof. rewrite run_create_valid. intros He Hf. rewrite Hf. by destruct He as [-> | ->]. Qed.

(** C7: when the product row has been flushed and [int()] then rejects
    the initial quantity with [ValueError] or [TypeError], the handler
    rolls the product back: the committed database is unchanged and the
    answer is 400 with the "Invalid data type" message. *)
Theorem create_invalid_quantity f w e :
  py_float price = Ok f -> wid = JInt w -> has_warehouse d w = true ->
  e = ValueError \/ e = TypeError -> py_int qty = Raise e ->
  run_create d (JObj kvs)
  = (Ok (error_response 400 "Invalid data type for price or initial_quantity"), d).
Proof.
  rewrite run_create_valid. intros Hf Hwid Hw He Hq. rewrite Hf, Hwid. simpl. rewrite Hw, Hq.
  by destruct He as [-> | ->].
Qed.

(** C13: an initial quantity on which [int()] raises [OverflowError] (the
    float [Infinity], which Python's JSON decoder accepts) falls through
    to the generic [except] clause after the product was flushed: the
    product is rolled back and the answer is 500, not the 400 of spec
    4.1 for invalid data. *)
Theorem create_quantity_overflow f w :
  py_float price = Ok f -> wid = JInt w -> has_warehouse d w = true ->
  py_int qty = Raise OverflowError ->
  run_create d (JObj kvs) = (Ok (error_response 500 "An unexpected error occurred."), d).
Proof.
  rewrite run_create_valid. intros Hf Hwid Hw Hq. rewrite Hf, Hwid. simpl. by rewrite Hw, Hq.
Qed.

(** C9: a warehouse id that names no warehouse makes the product INSERT
    violate its foreign key; the handler answers 409 with the SKU
    message, and nothing is written. *)
Theorem create_unknown_warehouse f w :
  py_float price = Ok f -> wid = JInt w -> has_warehouse d w = false ->
  run_create d (JObj kvs)
  = (Ok (error_response 409 "Database integrity error. SKU might already exist."), d).
Proof. rewrite run_create_valid. intros Hf Hwid Hw. rewrite Hf, Hwid. simpl. by rewrite Hw. Qed.

(** C8: a valid request on a database whose inventory rows reference
    existing products succeeds: the product gets id [1 + max], has no
    product type and no supplier, its inventory row is in the requested
    warehouse with the requested quantity, and both are committed. *)
Theorem create_success f w q :
  wf_db d -> py_float price = Ok f -> wid = JInt w -> has_warehouse d w = true ->
  py_int qty = Ok q ->
  let p := mkProduct (next_id (p_id <$> products d)) name sku f w None None in
  let i := mkInventory (next_id (i_id <$> inventories d)) (p_id p) w q in
  run_create d (JObj kvs)
  = (Ok (created_response (Some (p_id p))),
     with_inventories (with_products d (products d ++ [p])) (inventories d ++ [i])).
Proof.
  intros (_ & _ & _ & _ & _ & Hfk & _) Hf Hwid Hw Hq.
  rewrite run_create_valid, Hf, Hwid. simpl. rewrite Hw, Hq. simpl.
  by rewrite insert_new_inventory.
Qed.
End ValidRequest.

(** C5: a request whose SKU is already taken is answered 409 with the
    SKU in the message, before anything is added to the session. *)
Theorem create_duplicate_sku d kvs name sku price wid qty :
  request_of kvs name sku price wid qty -> sku_taken d sku = true ->
  run_create d (JObj kvs)
  = (Ok (error_response 409
           (String.append "Product with SKU '" (String.append sku "' already exists"))), d).
Proof.
  intros Hreq Htaken. pose proof Hreq as (Hn & Hs & _).
  destruct (request_of_check _ _ _ _ _ _ Hreq) as [Ht Ha].
  destruct (find_sku_taken _ _ Htaken) as (p & Hfind & <-).
  run_request. rewrite Ht, Ha. simpl.
  rewrite !py_getitem_obj, Hs. simpl. rewrite ?bind_text_JStr. simpl. by rewrite Hfind.
Qed.

(** C10: a JSON object lacking one of the five required fields is answered
    400 before the session is used. *)
Theorem create_missing_field d kvs f :
  f ∈ required_fields -> f ∉ kvs.*1 ->
  run_create d (JObj kvs) = (Ok (error_response 400 "Missing required fields"), d).
Proof.
  intros Hf Hnot.
  assert (Hb : forallb (fun f => bool_decide (f ∈ kvs.*1)) required_fields = false).
  { apply not_true_iff_false. intros Hall. apply Hnot.
    rewrite forallb_forall in Hall. apply (bool_decide_eq_true_1 _), Hall. by apply list_elem_of_In. }
  run_request. destruct kvs as [|kv kvs]; [done|]. simpl.
  rewrite all_fields_in_obj, Hb. done.
Qed.

(** C11: a truthy body that is a number or a boolean (valid JSON for
    [request.json]) makes [field in data] raise [TypeError] outside the
    [try]: the exception escapes the handler (Flask answers 500), not the
    400 of spec 4.1. *)
Theorem create_scalar_body d data :
  py_truthy data = true -> (forall kvs, data <> JObj kvs) -> (forall vs, data <> JArr vs) ->
  (forall s, data <> JStr s) ->
  run_create d data = (Raise TypeError, d).
Proof.
  intros Ht Ho Ha Hs. run_request. rewrite Ht. simpl.
  destruct data as [| | | | s | vs | kvs]; try done;
    [by destruct (Hs s) | by destruct (Ha vs) | by destruct (Ho kvs)].
Qed.

(** The handler preserves the integrity constraints of the database on
    every input (every write goes through a checked INSERT). *)
Theorem create_preserves_wf d data :
  wf_db d -> wf_db (run_create d data).2.
Proof.
  intros Hwf. run_create_cases; try done.
  all: try match goal with
       | H : create_product_handler _ _ = _ |- _ =>
           by apply create_product_handler_spec in H as [-> _]
       end.
  inv_obind. simplify_eq/=.
  eapply insert_inventory_wf; [eapply insert_product_wf|]; eassumption.
Qed.

(** The committed database after any request: unchanged, or extended by
    the product row the handler builds (id [1 + max], no product type, no
    supplier) and its inventory row. *)
Lemma run_create_shape d data :
  (run_create d data).2 = d
  \/ exists n s f w q,
       (run_create d data).2
       = with_inventories
           (with_products d (products d ++ [mkProduct (next_id (p_id <$> products d)) n s f w None None]))
           (inventories d ++ [mkInventory (next_id (i_id <$> inventories d))
                                          (next_id (p_id <$> products d)) w q]).
Proof.
  run_create_cases; try by left.
  all: try match goal with
       | H : create_product_handler _ _ = _ |- _ =>
           by apply create_product_handler_spec in H as [-> _]; left
       end.
  inv_obind. simplify_eq/=.
  repeat match goal with
         | H : insert_product _ _ = Ok _ |- _ => apply insert_product_Ok in H as [_ ->]
         | H : insert_inventory _ _ = Ok _ |- _ => apply insert_inventory_Ok in H as [_ ->]
         end.
  match goal with
  | H1 : bind_int ?v = Ok ?x, H2 : bind_int ?v = Ok ?y |- _ =>
      assert (x = y) by congruence; subst
  end.
  right. do 5 eexists. unfold next_id. reflexivity.
Qed.

(** ** Sample requests and the witnesses of the theorems *)

Definition sample_request (sku : string) (price : jvalue) (wid : Z) (qty : jvalue)
  : list (string * jvalue) :=
  [("name", JStr "Sprocket"); ("sku", JStr sku); ("price", price);
   ("warehouse_id", JInt wid); ("initial_quantity", qty)]%string.

Lemma create_duplicate_sku_witness :
  request_of (sample_request "W-1" (JStr "9.5") 1 (JInt 12)) "Sprocket" "W-1"
    (JStr "9.5") (JInt 1) (JInt 12)
  /\ sku_taken sample_db "W-1" = true
  /\ run_create sample_db (JObj (sample_request "W-1" (JStr "9.5") 1 (JInt 12)))
     = (Ok (error_response 409
              (String.append "Product with SKU '" (String.append "W-1" "' already exists"))),
        sample_db).
Proof.
  assert (Hr : request_of (sample_request "W-1" (JStr "9.5") 1 (JInt 12)) "Sprocket" "W-1"
                 (JStr "9.5") (JInt 1) (JInt 12)) by (repeat split).
  assert (Ht : sku_taken sample_db "W-1" = true) by reflexivity.
  split; [done|]. split; [done|]. apply (create_duplicate_sku _ _ _ _ _ _ _ Hr Ht).
Defined.

Lemma create_invalid_price_witness :
  request_of (sample_request "S-1" (JStr "abc") 1 (JInt 12)) "Sprocket" "S-1"
    (JStr "abc") (JInt 1) (JInt 12)
  /\ sku_taken sample_db "S-1" = false
  /\ py_float (JStr "abc") = Raise ValueError
  /\ run_create sample_db (JObj (sample_request "S-1" (JStr "abc") 1 (JInt 12)))
     = (Ok (error_response 400 "Invalid data type for price or initial_quantity"), sample_db).
Proof.
  assert (Hr : request_of (sample_request "S-1" (JStr "abc") 1 (JInt 12)) "Sprocket" "S-1"
                 (JStr "abc") (JInt 1) (JInt 12)) by (repeat split).
  assert (Ht : sku_taken sample_db "S-1" = false) by reflexivity.
  assert (Hf : py_float (JStr "abc") = Raise ValueError) by (vm_compute; reflexivity).
  split; [done|]. split; [done|]. split; [done|].
  apply (create_invalid_price _ _ _ _ _ _ _ Hr Ht _ (or_introl eq_refl) Hf).
Defined.

(** [int("12.5")] raises [ValueError] once the product is flushed. *)
Lemma create_invalid_quantity_witness :
  request_of (sample_request "S-1" (JStr "9.5") 1 (JStr "12.5")) "Sprocket" "S-1"
    (JStr "9.5") (JInt 1) (JStr "12.5")
  /\ sku_taken sample_db "S-1" = false
  /\ py_float (JStr "9.5") = Ok 9.5%float
  /\ has_warehouse sample_db 1 = true
  /\ py_int (JStr "12.5") = Raise ValueError
  /\ run_create sample_db (JObj (sample_request "S-1" (JStr "9.5") 1 (JStr "12.5")))
     = (Ok (error_response 400 "Invalid data type for price or initial_quantity"), sample_db).
Proof.
  assert (Hr : request_of (sample_request "S-1" (JStr "9.5") 1 (JStr "12.5"))
                 "Sprocket" "S-1" (JStr "9.5") (JInt 1) (JStr "12.5")) by (repeat split).
  assert (Ht : sku_taken sample_db "S-1" = false) by reflexivity.
  assert (Hf : py_float (JStr "9.5") = Ok 9.5%float) by (vm_compute; reflexivity).
  assert (Hw : has_warehouse sample_db 1 = true) by reflexivity.
  assert (Hq : py_int (JStr "12.5") = Raise ValueError) by (vm_compute; reflexivity).
  do 5 (split; [done|]).
  apply (create_invalid_quantity _ _ _ _ _ _ _ Hr Ht _ _ _ Hf eq_refl Hw (or_introl eq_refl) Hq).
Defined.

(** The quantity [Infinity] passes the product INSERT but [int(inf)]
    raises [OverflowError]. *)
Lemma create_quantity_overflow_witness :
  request_of (sample_request "S-1" (JStr "9.5") 1 (JFloat PrimFloat.infinity)) "Sprocket" "S-1"
    (JStr "9.5") (JInt 1) (JFloat PrimFloat.infinity)
  /\ sku_taken sample_db "S-1" = false
  /\ py_float (JStr "9.5") = Ok 9.5%float
  /\ has_warehouse sample_db 1 = true
  /\ py_int (JFloat PrimFloat.infinity) = Raise OverflowError
  /\ run_create sample_db (JObj (sample_request "S-1" (JStr "9.5") 1 (JFloat PrimFloat.infinity)))
     = (Ok (error_response 500 "An unexpected error occurred."), sample_db).
Proof.
  assert (Hr : request_of (sample_request "S-1" (JStr "9.5") 1 (JFloat PrimFloat.infinity))
                 "Sprocket" "S-1" (JStr "9.5") (JInt 1) (JFloat PrimFloat.infinity)) by (repeat split).
  assert (Ht : sku_taken sample_db "S-1" = false) by reflexivity.
  assert (Hf : py_float (JStr "9.5") = Ok 9.5%float) by (vm_compute; reflexivity).
  assert (Hw : has_warehouse sample_db 1 = true) by reflexivity.
  assert (Hq : py_int (JFloat PrimFloat.infinity) = Raise OverflowError) by (vm_compute; reflexivity).
  do 5 (split; [done|]).
  apply (create_quantity_overflow _ _ _ _ _ _ _ Hr Ht _ _ Hf eq_refl Hw Hq).
Defined.

Lemma create_unknown_warehouse_witness :
  request_of (sample_request "S-1" (JStr "9.5") 99 (JInt 3)) "Sprocket" "S-1"
    (JStr "9.5") (JInt 99) (JInt 3)
  /\ sku_taken sample_db "S-1" = false
  /\ py_float (JStr "9.5") = Ok 9.5%float
  /\ has_warehouse sample_db 99 = false
  /\ run_create sample_db (JObj (sample_request "S-1" (JStr "9.5") 99 (JInt 3)))
     = (Ok (error_response 409 "Database integrity error. SKU might already exist."), sample_db).
Proof.
  assert (Hr : request_of (sample_request "S-1" (JStr "9.5") 99 (JInt 3)) "Sprocket" "S-1"
                 (JStr "9.5") (JInt 99) (JInt 3)) by (repeat split).
  assert (Ht : sku_taken sample_db "S-1" = false) by reflexivity.
  assert (Hf : py_float (JStr "9.5") = Ok 9.5%float) by (vm_compute; reflexivity).
  assert (Hw : has_warehouse sample_db 99 = false) by reflexivity.
  do 4 (split; [done|]).
  apply (create_unknown_warehouse _ _ _ _ _ _ _ Hr Ht _ _ Hf eq_refl Hw).
Defined.

(** The handler checks neither the sign nor the finiteness of what it
    stores: a price of ["nan"] and an initial quantity of -5 are
    committed, although spec section 3 has price >= 0 and quantity >= 0. *)
Lemma create_success_witness :
  request_of (sample_request "N-1" (JStr "nan") 1 (JInt (-5))) "Sprocket" "N-1"
    (JStr "nan") (JInt 1) (JInt (-5))
  /\ sku_taken sample_db "N-1" = false /\ wf_db sample_db
  /\ py_float (JStr "nan") = Ok PrimFloat.nan /\ has_warehouse sample_db 1 = true
  /\ py_int (JInt (-5)) = Ok (-5)
  /\ (let p := mkProduct (next_id (p_id <$> products sample_db)) "Sprocket" "N-1" PrimFloat.nan 1 None None in
      let i := mkInventory (next_id (i_id <$> inventories sample_db)) (p_id p) 1 (-5) in
      run_create sample_db (JObj (sample_request "N-1" (JStr "nan") 1 (JInt (-5))))
      = (Ok (created_response (Some (p_id p))),
         with_inventories (with_products sample_db (products sample_db ++ [p]))
                          (inventories sample_db ++ [i]))).
Proof.
  assert (Hr : request_of (sample_request "N-1" (JStr "nan") 1 (JInt (-5))) "Sprocket" "N-1"
                 (JStr "nan") (JInt 1) (JInt (-5))) by (repeat split).
  assert (Ht : sku_taken sample_db "N-1" = false) by reflexivity.
  assert (Hf : py_float (JStr "nan") = Ok PrimFloat.nan) by (vm_compute; reflexivity).
  assert (Hw : has_warehouse sample_db 1 = true) by reflexivity.
  assert (Hq : py_int (JInt (-5)) = Ok (-5)) by reflexivity.
  split; [done|]. split; [done|]. split; [apply sample_db_wf|].
  do 3 (split; [done|]).
  apply (create_success _ _ _ _ _ _ _ Hr Ht _ _ _ sample_db_wf Hf eq_refl Hw Hq).
Defined.

Lemma create_missing_field_witness :
  "price"%string ∈ required_fields
  /\ ("price"%string ∉ ([("name", JStr "Sprocket"); ("sku", JStr "S-1")]%string).*1)
  /\ run_create sample_db (JObj [("name", JStr "Sprocket"); ("sku", JStr "S-1")]%string)
     = (Ok (error_response 400 "Missing required fields"), sample_db).
Proof.
  assert (H1 : "price"%string ∈ required_fields) by (apply (bool_decide_unpack _); vm_compute; exact I).
  assert (H2 : "price"%string ∉ ([("name", JStr "Sprocket"); ("sku", JStr "S-1")]%string).*1)
    by (apply (bool_decide_unpack _); vm_compute; exact I).
  split; [done|]. split; [done|]. apply (create_missing_field _ _ _ H1 H2).
Defined.

Lemma create_scalar_body_witness :
  py_truthy (JInt 5) = true /\ run_create sample_db (JInt 5) = (Raise TypeError, sample_db).
Proof.
  split; [reflexivity|].
  apply create_scalar_body; [reflexivity|done|done|done].
Defined.
