(* ===== verification/LowStock.v ===== *)
(** * The low-stock alert handler ([get_low_stock_alerts])

    [src/low_stock_alert_APIEndpoint.py] builds one SQLAlchemy query and
    formats its rows.  The model follows the query clause by clause:

    - [joined]: the joins of lines 26-33, evaluated as a list
      comprehension over the inventory rows (inner joins with Product,
      Warehouse, ProductType and SalesActivity, the left outer join with
      Supplier, which yields [None] when no supplier matches);
    - [where_clause]: the three [filter] calls of lines 34-36;
    - [group_by]: [group_by(Inventory.id, Product.id, Warehouse.id,
      ProductType.id, Supplier.id)] with [func.sum(quantity_sold)] (lines
      25 and 37), generic in the Section [GroupBy];
    - [days_until_stockout] and [format_alert]: the loop body of lines
      43-64, with the float arithmetic of [PyNum];
    - [get_low_stock_alerts]: the whole handler, returning the alerts and
      their count, or the exception the formatting loop raises. *)

From Stdlib Require Import ZArith String Floats.
From stdpp Require Import base list strings.
From S2P Require Import Prelude PyNum Schema.

Local Open Scope Z_scope.
Local Open Scope py_scope.
Local Set Warnings "-clear-no-such-hyp".

(** ** SQL GROUP BY with SUM, keeping groups in order of first row *)

Section GroupBy.
Context {R K : Type} `{EqDecision K}.
Variable key : R -> K.
Variable val : R -> Z.

(** Add one row to the groups: to the total of its group, or as a new
    group it represents. *)
Fixpoint add_row (gs : list (R * Z)) (r : R) : list (R * Z) :=
  match gs with
  | [] => [(r, val r)]
  | (r0, tot) :: gs' =>
      if decide (key r0 = key r) then (r0, tot + val r) :: gs'
      else (r0, tot) :: add_row gs' r
  end.

Definition group_by (rows : list R) : list (R * Z) := fold_left add_row rows [].
End GroupBy.

(** What a group must hold once [rows] are processed: distinct keys, each
    group represented by one of the rows and totalling the values of the
    rows with its key, and every row's key present. *)
Section GroupByFacts.
Context {R K : Type} `{EqDecision K}.
Variable key : R -> K.
Variable val : R -> Z.

Definition total_of (k : K) (rows : list R) : Z :=
  sumZ (map val (List.filter (fun r => bool_decide (key r = k)) rows)).

Definition gkeys (gs : list (R * Z)) : list K := (fun g => key g.1) <$> gs.

Definition groups_inv (rows : list R) (gs : list (R * Z)) : Prop :=
  NoDup (gkeys gs)
  /\ (forall g, g ∈ gs -> g.1 ∈ rows /\ g.2 = total_of (key g.1) rows)
  /\ (forall r, r ∈ rows -> key r ∈ gkeys gs).

Lemma add_row_keys gs r k :
  k ∈ gkeys (add_row key val gs r) <-> k ∈ gkeys gs \/ k = key r.
Proof.
  induction gs as [|[r0 t] gs IH]; simpl.
  - unfold gkeys. simpl. rewrite list_elem_of_singleton, elem_of_nil. naive_solver.
  - unfold gkeys in *. case_decide; simpl; rewrite !elem_of_cons; [naive_solver|].
    rewrite IH. naive_solver.
Qed.

Lemma add_row_NoDup gs r : NoDup (gkeys gs) -> NoDup (gkeys (add_row key val gs r)).
Proof.
  induction gs as [|[r0 t] gs IH]; simpl; intros Hnd.
  - apply NoDup_singleton.
  - unfold gkeys in *. simpl in *. apply NoDup_cons in Hnd as [Hn Hnd].
    case_decide; simpl; apply NoDup_cons; split; try done; [|by apply IH].
    change (key r0 ∉ gkeys (add_row key val gs r)). rewrite add_row_keys. naive_solver.
Qed.

Lemma add_row_member gs r g :
  NoDup (gkeys gs) -> g ∈ add_row key val gs r ->
  (g = (r, val r) /\ key r ∉ gkeys gs)
  \/ exists t, (g.1, t) ∈ gs /\ g.2 = t + (if decide (key r = key g.1) then val r else 0).
Proof.
  induction gs as [|[r0 t] gs IH]; simpl; intros Hnd Hin.
  - apply list_elem_of_singleton in Hin. left. split; [done|]. apply not_elem_of_nil.
  - unfold gkeys in *. simpl in *. apply NoDup_cons in Hnd as [Hn Hnd].
    case_decide as Hk.
    + apply elem_of_cons in Hin as [->|Hin]; right; simpl.
      * exists t. rewrite decide_True by done. split; [constructor|done].
      * exists g.2. rewrite decide_False.
        -- split; [destruct g; by apply elem_of_cons; right|lia].
        -- intros Heq. apply Hn. rewrite Hk, Heq. apply list_elem_of_fmap. by exists g.
    + apply elem_of_cons in Hin as [->|Hin].
      * right. exists t. simpl. rewrite decide_False by congruence. split; [constructor|lia].
      * destruct (IH Hnd Hin) as [[-> Hnot]|(t' & Ht' & Hv)].
        -- left. split; [done|]. rewrite elem_of_cons. naive_solver.
        -- right. exists t'. split; [by apply elem_of_cons; right|done].
Qed.

Lemma total_of_snoc k rows r :
  total_of k (rows ++ [r]) = total_of k rows + (if decide (key r = k) then val r else 0).
Proof.
  unfold total_of. rewrite List.filter_app, map_app, sumZ_app. simpl.
  case_bool_decide; case_decide; simpl; try lia; congruence.
Qed.

Lemma add_row_inv rows gs r :
  groups_inv rows gs -> groups_inv (rows ++ [r]) (add_row key val gs r).
Proof.
  intros (Hnd & Hmem & Hcov). split; [by apply add_row_NoDup|]. split.
  - intros g Hg. destruct (add_row_member gs r g Hnd Hg) as [[-> Hnot]|(t & Ht & Hv)].
    + simpl. split; [apply elem_of_app; right; constructor|].
      rewrite total_of_snoc, decide_True by done.
      assert (total_of (key r) rows = 0) as ->; [|lia].
      unfold total_of. rewrite filter_all_false; [done|].
      intros x Hx. apply bool_decide_eq_false. intros Hkx. apply Hnot.
      rewrite <- Hkx. apply Hcov. by apply list_elem_of_In.
    + destruct (Hmem _ Ht) as [Hin Htot]. simpl in *.
      split; [by apply elem_of_app; left|]. rewrite total_of_snoc. lia.
  - intros x Hx. apply add_row_keys. apply elem_of_app in Hx as [Hx|Hx]; [by left; apply Hcov|].
    apply list_elem_of_singleton in Hx. by right; subst.
Qed.

Lemma fold_add_row_inv rows pre gs :
  groups_inv pre gs -> groups_inv (pre ++ rows) (fold_left (add_row key val) rows gs).
Proof.
  revert pre gs. induction rows as [|r rows IH]; simpl; intros pre gs Hinv.
  - by rewrite app_nil_r.
  - rewrite cons_middle, app_assoc. apply IH. by apply add_row_inv.
Qed.

Theorem group_by_inv rows : groups_inv rows (group_by key val rows).
Proof.
  apply (fold_add_row_inv rows [] []). split; [constructor|]. split.
  - intros g Hg. by apply elem_of_nil in Hg.
  - intros r Hr. by apply elem_of_nil in Hr.
Qed.
End GroupByFacts.

(** ** The query *)

Definition recent_period_days : Z := 30.

(** [timedelta(days=1)] in microseconds. *)
Definition day_us : Z := 86400 * 1000000.

(** [datetime.utcnow() - timedelta(days=recent_period_days)] *)
Definition activity_since_date (now : Z) : Z := now - recent_period_days * day_us.

(** One row of the joined relation. *)
Record row := mkRow {
  r_inv : inventory;
  r_prod : product;
  r_wh : warehouse;
  r_type : product_type;
  r_sup : option supplier;
  r_sale : sales_activity
}.

(** [outerjoin(Supplier, Product.supplier_id == Supplier.id)]: a NULL
    [supplier_id] matches nothing. *)
Definition supplier_matches (p : product) (s : supplier) : bool :=
  match p_supplier_id p with
  | Some k => s_id s =? k
  | None => false
  end.

Definition supplier_outer (d : db) (p : product) : list (option supplier) :=
  match List.filter (supplier_matches p) (suppliers d) with
  | [] => [None]
  | ss => map Some ss
  end.

Definition type_matches (p : product) (t : product_type) : bool :=
  match p_product_type_id p with
  | Some k => t_id t =? k
  | None => false
  end.

Definition sale_matches (i : inventory) (a : sales_activity) : bool :=
  (a_product_id a =? i_product_id i) && (a_warehouse_id a =? i_warehouse_id i).

(** The rows the joins produce for one inventory row [i]. *)
Definition joined_for (d : db) (i : inventory) : list row :=
  flat_map (fun p =>
    flat_map (fun w =>
      flat_map (fun t =>
        flat_map (fun s =>
          map (fun a => mkRow i p w t s a)
              (List.filter (sale_matches i) (sales d)))
        (supplier_outer d p))
      (List.filter (type_matches p) (product_types d)))
    (List.filter (fun w => w_id w =? i_warehouse_id i) (warehouses d)))
  (List.filter (fun p => p_id p =? i_product_id i) (products d)).

(** The FROM clause with its joins. *)
Definition joined (d : db) : list row := flat_map (joined_for d) (inventories d).

(** The WHERE clause. *)
Definition where_clause (company_id since : Z) (r : row) : bool :=
  (w_company_id (r_wh r) =? company_id)
  && (since <=? a_sale_date (r_sale r))
  && (i_quantity (r_inv r) <=? t_low_stock_threshold (r_type r)).

Definition group_key (r : row) : Z * Z * Z * Z * option Z :=
  (i_id (r_inv r), p_id (r_prod r), w_id (r_wh r), t_id (r_type r), s_id <$> r_sup r).

Definition sold (r : row) : Z := a_quantity_sold (r_sale r).

(** [low_stock_query.all()]: one result per group, with [total_sold] the
    SQL [SUM] (never NULL here, the group having at least one row). *)
Definition low_stock_query (d : db) (company_id since : Z) : list (row * option Z) :=
  map (fun g => (g.1, Some g.2))
      (group_by group_key sold (List.filter (where_clause company_id since) (joined d))).

(** ** Formatting the response *)

Record alert := mkAlert {
  al_product_id : Z;
  al_product_name : string;
  al_sku : string;
  al_warehouse_id : Z;
  al_warehouse_name : string;
  al_current_stock : Z;
  al_threshold : Z;
  al_days_until_stockout : option Z;
  al_supplier_id : option Z;
  al_supplier_name : option string;
  al_supplier_contact_email : option string
}.

(** Lines 44-48. *)
Definition days_until_stockout (quantity : Z) (total_sold : option Z) : outcome (option Z) :=
  match total_sold with
  | Some t =>
      if 0 <? t then
        avg_daily_sales <-? py_int_truediv t recent_period_days ;;
        if py_float_pos avg_daily_sales then
          x <-? py_int_div_float quantity avg_daily_sales ;;
          n <-? py_int_of_float x ;;
          Ok (Some n)
        else Ok None
      else Ok None
  | None => Ok None
  end.

(** Lines 44-64: one alert. *)
Definition format_alert (r : row) (total_sold : option Z) : outcome alert :=
  days <-? days_until_stockout (i_quantity (r_inv r)) total_sold ;;
  Ok (mkAlert (p_id (r_prod r)) (p_name (r_prod r)) (p_sku (r_prod r))
              (w_id (r_wh r)) (w_name (r_wh r))
              (i_quantity (r_inv r)) (t_low_stock_threshold (r_type r)) days
              (s_id <$> r_sup r) (s_name <$> r_sup r) (s_contact_email <$> r_sup r)).

(** The loop of lines 42-64. *)
Fixpoint format_alerts (rs : list (row * option Z)) : outcome (list alert) :=
  match rs with
  | [] => Ok []
  | (r, t) :: rs' =>
      a <-? format_alert r t ;;
      l <-? format_alerts rs' ;;
      Ok (a :: l)
  end.

Record alerts_response := mkAlertsResponse {
  alerts : list alert;
  total_alerts : Z
}.

(** The handler, for the database [d] at time [now] (microseconds). *)
Definition get_low_stock_alerts (d : db) (now company_id : Z) : outcome alerts_response :=
  let since := activity_since_date now in
  al <-? format_alerts (low_stock_query d company_id since) ;;
  Ok (mkAlertsResponse al (Z.of_nat (length al))).

(** ** The join *)

(** The conditions a row of [joined] satisfies: the ON clauses. *)
Definition join_row (d : db) (r : row) : Prop :=
  In (r_inv r) (inventories d)
  /\ In (r_prod r) (products d) /\ p_id (r_prod r) = i_product_id (r_inv r)
  /\ In (r_wh r) (warehouses d) /\ w_id (r_wh r) = i_warehouse_id (r_inv r)
  /\ In (r_type r) (product_types d)
  /\ p_product_type_id (r_prod r) = Some (t_id (r_type r))
  /\ In (r_sup r) (supplier_outer d (r_prod r))
  /\ In (r_sale r) (sales d) /\ sale_matches (r_inv r) (r_sale r) = true.

Lemma type_matches_iff p t :
  type_matches p t = true <-> p_product_type_id p = Some (t_id t).
Proof.
  unfold type_matches. destruct (p_product_type_id p); [|done].
  rewrite Z.eqb_eq. naive_solver.
Qed.

Lemma in_joined d r : In r (joined d) <-> join_row d r.
Proof.
  unfold joined, joined_for, join_row. split.
  - intros (i & Hi & (p & (Hp & Hpid%Z.eqb_eq)%filter_In & (w & (Hw & Hwid%Z.eqb_eq)%filter_In &
      (t & (Ht & Htm%type_matches_iff)%filter_In & (s & Hs & (a & <- & (Ha & Ham)%filter_In)%in_map_iff)
      %in_flat_map)%in_flat_map)%in_flat_map)%in_flat_map)%in_flat_map.
    simpl. naive_solver.
  - destruct r as [i p w t s a]; simpl.
    intros (Hi & Hp & Hpid & Hw & Hwid & Ht & Htm & Hs & Ha & Ham).
    apply in_flat_map. exists i. split; [done|].
    apply in_flat_map. exists p. split; [apply filter_In; by rewrite Z.eqb_eq|].
    apply in_flat_map. exists w. split; [apply filter_In; by rewrite Z.eqb_eq|].
    apply in_flat_map. exists t. split; [apply filter_In; by rewrite type_matches_iff|].
    apply in_flat_map. exists s. split; [done|].
    apply in_map_iff. exists a. split; [done|]. by apply filter_In.
Qed.

Lemma supplier_outer_nonempty d p : exists s, In s (supplier_outer d p).
Proof.
  unfold supplier_outer. destruct (List.filter _ _) as [|x xs].
  - exists None. by left.
  - exists (Some x). by left.
Qed.

Lemma supplier_outer_Some d p x :
  In (Some x) (supplier_outer d p) -> In x (suppliers d) /\ supplier_matches p x = true.
Proof.
  unfold supplier_outer. destruct (List.filter _ _) as [|y ys] eqn:Hf.
  - intros [[=]|[]].
  - intros (z & [= ->] & Hz)%in_map_iff. apply filter_In. by rewrite Hf.
Qed.

Lemma supplier_outer_None d p x :
  In None (supplier_outer d p) -> In x (suppliers d) -> supplier_matches p x = false.
Proof.
  unfold supplier_outer. destruct (List.filter _ _) as [|y ys] eqn:Hf.
  - intros _. by apply filter_nil_false.
  - intros (z & [=] & _)%in_map_iff.
Qed.

(** ** The query result *)

Lemma low_stock_query_member d cid since r t :
  (r, t) ∈ low_stock_query d cid since ->
  In r (joined d) /\ where_clause cid since r = true
  /\ t = Some (total_of group_key sold (group_key r)
                 (List.filter (where_clause cid since) (joined d))).
Proof.
  unfold low_stock_query. intros ([r' t'] & [= -> ->] & Hg)%list_elem_of_fmap.
  destruct (group_by_inv group_key sold (List.filter (where_clause cid since) (joined d)))
    as (_ & Hmem & _).
  destruct (Hmem _ Hg) as [Hin Htot]. simpl in Hin, Htot. subst t'.
  apply list_elem_of_In, filter_In in Hin as [Hin Hw]. done.
Qed.

Lemma low_stock_query_covers d cid since r :
  In r (joined d) -> where_clause cid since r = true ->
  exists r' t, (r', t) ∈ low_stock_query d cid since /\ group_key r' = group_key r.
Proof.
  intros Hj Hw. unfold low_stock_query.
  destruct (group_by_inv group_key sold (List.filter (where_clause cid since) (joined d)))
    as (_ & _ & Hcov).
  assert (Hk : group_key r ∈ gkeys group_key (group_by group_key sold
                 (List.filter (where_clause cid since) (joined d)))).
  { apply Hcov. apply list_elem_of_In, filter_In. done. }
  apply list_elem_of_fmap in Hk as ([r' t] & Hk & Hg).
  exists r', (Some t). split; [|done]. apply list_elem_of_fmap. by exists (r', t).
Qed.

Lemma low_stock_query_NoDup d cid since :
  NoDup ((fun g => group_key g.1) <$> low_stock_query d cid since).
Proof.
  unfold low_stock_query. rewrite <- list_fmap_compose.
  apply (group_by_inv group_key sold).
Qed.

(** ** Formatting *)

Lemma format_alert_Ok r t a :
  format_alert r t = Ok a ->
  al_product_id a = p_id (r_prod r) /\ al_warehouse_id a = w_id (r_wh r)
  /\ al_current_stock a = i_quantity (r_inv r)
  /\ al_threshold a = t_low_stock_threshold (r_type r)
  /\ days_until_stockout (i_quantity (r_inv r)) t = Ok (al_days_until_stockout a).
Proof.
  unfold format_alert. destruct (days_until_stockout _ _) eqn:Hd; simpl; [|discriminate].
  intros [= <-]. simpl. done.
Qed.

Lemma format_alerts_member rs al a :
  format_alerts rs = Ok al -> a ∈ al -> exists r t, (r, t) ∈ rs /\ format_alert r t = Ok a.
Proof.
  revert al. induction rs as [|[r t] rs IH]; simpl; intros al Hf Ha.
  - injection Hf as <-. by apply elem_of_nil in Ha.
  - destruct (format_alert r t) as [b|] eqn:Hb; simpl in Hf; [|discriminate].
    destruct (format_alerts rs) as [l|] eqn:Hl; simpl in Hf; [|discriminate].
    injection Hf as <-. apply elem_of_cons in Ha as [->|Ha].
    + exists r, t. split; [constructor|done].
    + destruct (IH l eq_refl Ha) as (r' & t' & Hin & Hfa).
      exists r', t'. split; [by apply elem_of_cons; right|done].
Qed.

Lemma format_alerts_total rs al r t :
  format_alerts rs = Ok al -> (r, t) ∈ rs -> exists a, a ∈ al /\ format_alert r t = Ok a.
Proof.
  revert al. induction rs as [|[r0 t0] rs IH]; simpl; intros al Hf Hin.
  - by apply elem_of_nil in Hin.
  - destruct (format_alert r0 t0) as [b|] eqn:Hb; simpl in Hf; [|discriminate].
    destruct (format_alerts rs) as [l|] eqn:Hl; simpl in Hf; [|discriminate].
    injection Hf as <-. apply elem_of_cons in Hin as [[= -> ->]|Hin].
    + exists b. split; [constructor|done].
    + destruct (IH l eq_refl Hin) as (a & Ha & Hfa).
      exists a. split; [by apply elem_of_cons; right|done].
Qed.

Lemma format_alerts_ids rs al :
  format_alerts rs = Ok al ->
  (fun a => (al_product_id a, al_warehouse_id a)) <$> al
  = (fun g => (p_id (r_prod g.1), w_id (r_wh g.1))) <$> rs.
Proof.
  revert al. induction rs as [|[r t] rs IH]; cbn [format_alerts]; intros al Hf.
  - by injection Hf as <-.
  - destruct (format_alert r t) as [b|] eqn:Hb; simpl in Hf; [|discriminate].
    destruct (format_alerts rs) as [l|] eqn:Hl; simpl in Hf; [|discriminate].
    injection Hf as <-. rewrite !fmap_cons.
    destruct (format_alert_Ok _ _ _ Hb) as (-> & -> & _). f_equal. by apply IH.
Qed.

(** ** The contract of spec 4.2 *)

(** A (product, warehouse) pair the handler must report: an inventory
    row of a warehouse of the company, with its product and the product's
    type, stock at or below the threshold, and a sale of that product in
    that warehouse since [since]. *)
Definition low_stock_item (d : db) (cid since : Z) (pw : Z * Z) : Prop :=
  exists i p w t sa,
    In i (inventories d) /\ In p (products d) /\ p_id p = i_product_id i
    /\ In w (warehouses d) /\ w_id w = i_warehouse_id i
    /\ In t (product_types d) /\ p_product_type_id p = Some (t_id t)
    /\ w_company_id w = cid /\ i_quantity i <= t_low_stock_threshold t
    /\ In sa (sales d) /\ sale_matches i sa = true /\ since <= a_sale_date sa
    /\ pw = (p_id p, w_id w).

Lemma where_clause_iff cid since r :
  where_clause cid since r = true <->
  w_company_id (r_wh r) = cid /\ since <= a_sale_date (r_sale r)
  /\ i_quantity (r_inv r) <= t_low_stock_threshold (r_type r).
Proof. unfold where_clause. rewrite !andb_true_iff, Z.eqb_eq, !Z.leb_le. tauto. Qed.

Lemma supplier_matches_iff p s :
  supplier_matches p s = true <-> p_supplier_id p = Some (s_id s).
Proof.
  unfold supplier_matches. destruct (p_supplier_id p); [|done].
  rewrite Z.eqb_eq. naive_solver.
Qed.

Lemma row_item d cid since r :
  In r (joined d) -> where_clause cid since r = true ->
  low_stock_item d cid since (p_id (r_prod r), w_id (r_wh r)).
Proof.
  intros (Hi & Hp & Hpid & Hw & Hwid & Ht & Htm & Hs & Ha & Ham)%in_joined
         (Hc & Hsince & Hq)%where_clause_iff.
  exists (r_inv r), (r_prod r), (r_wh r), (r_type r), (r_sale r). done.
Qed.

Lemma item_row d cid since pw :
  low_stock_item d cid since pw ->
  exists r, In r (joined d) /\ where_clause cid since r = true
            /\ pw = (p_id (r_prod r), w_id (r_wh r)).
Proof.
  intros (i & p & w & t & sa & Hi & Hp & Hpid & Hw & Hwid & Ht & Htm & Hc & Hq & Ha & Ham & Hs & ->).
  destruct (supplier_outer_nonempty d p) as [s Hsup].
  exists (mkRow i p w t s sa). split; [apply in_joined; done|].
  split; [apply where_clause_iff; done|done].
Qed.

(** Under the integrity constraints the product and warehouse of a joined
    row determine its whole group key: one inventory row per pair, primary
    keys, and at most one supplier per product. *)
Lemma joined_key_determined d r1 r2 :
  wf_db d -> In r1 (joined d) -> In r2 (joined d) ->
  p_id (r_prod r1) = p_id (r_prod r2) -> w_id (r_wh r1) = w_id (r_wh r2) ->
  group_key r1 = group_key r2.
Proof.
  intros (Hpk & _ & _ & _ & Hpair & _ & Hwk & _ & _)
    (Hi1 & Hp1 & Hpid1 & Hw1 & Hwid1 & _ & Ht1 & Hs1 & _)%in_joined
    (Hi2 & Hp2 & Hpid2 & Hw2 & Hwid2 & _ & Ht2 & Hs2 & _)%in_joined Hp Hw.
  assert (Hi : r_inv r1 = r_inv r2).
  { apply (NoDup_fmap_eq _ _ _ _ Hpair); try by apply list_elem_of_In. congruence. }
  assert (Hpr : r_prod r1 = r_prod r2).
  { apply (NoDup_fmap_eq _ _ _ _ Hpk); try by apply list_elem_of_In. done. }
  assert (Hwr : r_wh r1 = r_wh r2).
  { apply (NoDup_fmap_eq _ _ _ _ Hwk); try by apply list_elem_of_In. done. }
  assert (Hsup : s_id <$> r_sup r1 = s_id <$> r_sup r2).
  { rewrite Hpr in Hs1.
    destruct (r_sup r1) as [x1|], (r_sup r2) as [x2|]; simpl; try done.
    - apply supplier_outer_Some in Hs1 as [_ Hm1%supplier_matches_iff].
      apply supplier_outer_Some in Hs2 as [_ Hm2%supplier_matches_iff]. congruence.
    - apply supplier_outer_Some in Hs1 as [Hx1 Hm1].
      by rewrite (supplier_outer_None _ _ _ Hs2 Hx1) in Hm1.
    - apply supplier_outer_Some in Hs2 as [Hx2 Hm2].
      by rewrite (supplier_outer_None _ _ _ Hs1 Hx2) in Hm2. }
  unfold group_key. rewrite Hi, Hpr, Hwr, Hsup. congruence.
Qed.

(** C2: the handler implements the contract of spec 4.2: the
    (product, warehouse) pairs of the alerts are exactly the low-stock
    items of the company with a sale in the last 30 days. *)
Theorem alerts_refine d now cid resp :
  get_low_stock_alerts d now cid = Ok resp ->
  forall pw, pw ∈ (fun a => (al_product_id a, al_warehouse_id a)) <$> alerts resp
             <-> low_stock_item d cid (activity_since_date now) pw.
Proof.
  unfold get_low_stock_alerts.
  destruct (format_alerts _) as [al|] eqn:Hf; simpl; intros Hr; [|discriminate].
  injection Hr as <-. simpl. intros pw. split.
  - intros (a & -> & Ha)%list_elem_of_fmap.
    destruct (format_alerts_member _ _ _ Hf Ha) as (r & t & Hq & Hfa).
    destruct (format_alert_Ok _ _ _ Hfa) as (-> & -> & _).
    destruct (low_stock_query_member _ _ _ _ _ Hq) as (Hj & Hw & _).
    by apply row_item.
  - intros (r & Hj & Hw & ->)%item_row.
    destruct (low_stock_query_covers _ _ _ _ Hj Hw) as (r' & t & Hq & Hk).
    destruct (format_alerts_total _ _ _ _ Hf Hq) as (a & Ha & Hfa).
    destruct (format_alert_Ok _ _ _ Hfa) as (Hpa & Hwa & _).
    apply list_elem_of_fmap. exists a. split; [|done].
    unfold group_key in Hk. injection Hk. intros. congruence.
Qed.

(** C3: on a database satisfying its integrity constraints, the handler
    reports each (product, warehouse) pair at most once. *)
Theorem alerts_unique d now cid resp :
  wf_db d -> get_low_stock_alerts d now cid = Ok resp ->
  NoDup ((fun a => (al_product_id a, al_warehouse_id a)) <$> alerts resp).
Proof.
  intros Hwf. unfold get_low_stock_alerts.
  destruct (format_alerts _) as [al|] eqn:Hf; simpl; intros Hr; [|discriminate].
  injection Hr as <-. simpl. rewrite (format_alerts_ids _ _ Hf).
  apply (NoDup_fmap_factor _ (fun g => group_key g.1)); [apply low_stock_query_NoDup|].
  intros [r1 t1] [r2 t2] H1 H2 Heq. simpl in *. injection Heq as Hp Hw.
  apply low_stock_query_member in H1 as (Hj1 & _), H2 as (Hj2 & _).
  by apply (joined_key_determined d).
Qed.

(** ** The total of recent sales *)

(** What spec 4.2 step 4 says [total_sold] is: the sum of the quantities
    sold of the item's product in the item's warehouse since [since]. *)
Definition recent_sold (d : db) (i : inventory) (since : Z) : Z :=
  sumZ (map a_quantity_sold
          (List.filter (fun a => sale_matches i a && (since <=? a_sale_date a)) (sales d))).

Lemma in_joined_for_inv d i r : In r (joined_for d i) -> r_inv r = i.
Proof.
  unfold joined_for.
  intros (p & _ & (w & _ & (t & _ & (s & _ & (a & <- & _)%in_map_iff)
    %in_flat_map)%in_flat_map)%in_flat_map)%in_flat_map. done.
Qed.

Lemma supplier_outer_single d p s :
  NoDup (s_id <$> suppliers d) -> In s (supplier_outer d p) -> supplier_outer d p = [s].
Proof.
  unfold supplier_outer. destruct (List.filter (supplier_matches p) (suppliers d)) as [|x xs] eqn:Hf.
  - by intros _ [<-|[]].
  - intros Hnd Hs.
    assert (Hx : In x (List.filter (supplier_matches p) (suppliers d))) by (rewrite Hf; by left).
    apply filter_In in Hx as [Hx Hm%supplier_matches_iff].
    assert (Hk : List.filter (supplier_matches p) (suppliers d)
                 = List.filter (fun y => s_id y =? s_id x) (suppliers d)).
    { apply List.filter_ext. intros y. unfold supplier_matches. by rewrite Hm. }
    rewrite Hk, filter_key_unique in Hf; [|done|by apply list_elem_of_In].
    injection Hf as <-. simpl in Hs. by destruct Hs as [<-|[]].
Qed.

(** Under the integrity constraints, the rows joined for the inventory row
    of a joined row [r] are [r]'s entities with each matching sale. *)
Lemma joined_for_group d r :
  wf_db d -> In r (joined d) ->
  joined_for d (r_inv r)
  = map (mkRow (r_inv r) (r_prod r) (r_wh r) (r_type r) (r_sup r))
        (List.filter (sale_matches (r_inv r)) (sales d)).
Proof.
  intros (Hpk & _ & _ & _ & _ & _ & Hwk & Htk & Hsk)
    (Hi & Hp & Hpid & Hw & Hwid & Ht & Htm & Hs & _)%in_joined.
  unfold joined_for. rewrite <- Hpid, <- Hwid.
  rewrite filter_key_unique by (done || by apply list_elem_of_In). simpl.
  rewrite filter_key_unique by (done || by apply list_elem_of_In). simpl.
  assert (Hty : List.filter (type_matches (r_prod r)) (product_types d)
                = List.filter (fun t => t_id t =? t_id (r_type r)) (product_types d)).
  { apply List.filter_ext. intros t. unfold type_matches. by rewrite Htm. }
  rewrite Hty, filter_key_unique by (done || by apply list_elem_of_In). simpl.
  rewrite (supplier_outer_single _ _ _ Hsk Hs). simpl. by rewrite !app_nil_r.
Qed.

(** The joined rows in the group of a joined row [r]. *)
Lemma joined_group_rows d r :
  wf_db d -> In r (joined d) ->
  List.filter (fun x => bool_decide (group_key x = group_key r)) (joined d)
  = map (mkRow (r_inv r) (r_prod r) (r_wh r) (r_type r) (r_sup r))
        (List.filter (sale_matches (r_inv r)) (sales d)).
Proof.
  intros Hwf Hj. pose proof Hwf as (_ & _ & _ & Hik & _).
  assert (Hi : r_inv r ∈ inventories d) by (apply list_elem_of_In; apply in_joined in Hj; apply Hj).
  unfold joined at 1. rewrite filter_flat_map.
  rewrite (flat_map_single _ _ (r_inv r)); [| by apply NoDup_fmap_1 in Hik | done |].
  - rewrite filter_all_true; [by apply joined_for_group|].
    intros x Hx. rewrite (joined_for_group d r Hwf Hj) in Hx.
    apply in_map_iff in Hx as (a & <- & _). by apply bool_decide_eq_true.
  - intros y Hy Hne. apply filter_all_false. intros x Hx.
    apply bool_decide_eq_false. intros Hk. apply Hne.
    apply (NoDup_fmap_eq i_id (inventories d)); [done|done|done|].
    rewrite <- (in_joined_for_inv _ _ _ Hx).
    unfold group_key in Hk. by injection Hk.
Qed.

(** C4: on a database satisfying its integrity constraints, the
    [total_sold] of each result row of the query is the sum of the
    quantities sold of the item's product in the item's warehouse since
    the start of the window (spec 4.2 step 4): the outer join with
    Supplier does not multiply the sales. *)
Theorem query_total_sold d cid since r t :
  wf_db d -> (r, t) ∈ low_stock_query d cid since ->
  t = Some (recent_sold d (r_inv r) since).
Proof.
  intros Hwf Hq. apply low_stock_query_member in Hq as (Hj & Hw & ->).
  apply where_clause_iff in Hw as (Hc & _ & Hqt).
  f_equal. unfold total_of, recent_sold.
  rewrite filter_filter_and.
  rewrite (List.filter_ext _ (fun x => bool_decide (group_key x = group_key r)
                                      && where_clause cid since x)) by (intros; apply andb_comm).
  rewrite <- filter_filter_and, (joined_group_rows d r Hwf Hj), filter_map_comm, map_map.
  rewrite filter_filter_and. f_equal. f_equal. apply List.filter_ext. intros a. simpl.
  unfold where_clause. simpl. rewrite Hc, Z.eqb_refl. apply Z.leb_le in Hqt. rewrite Hqt.
  by rewrite andb_true_r.
Qed.

(** ** [days_until_stockout] *)

(** What the code returns against the exact [floor(30 q / t)] of spec 4.2
    step 5 (with Z's flooring [/]).  For a stock [q >= 0]: the exact
    value when [30 q / t] is not an integer, and the exact value or one
    less when it is.  For [q < 0]: one more than the floor when the
    quotient is not an integer (the truncation toward zero of [int()]),
    and the exact value or one more when it is. *)
Definition stockout_close (q t n : Z) : bool :=
  let k := 30 * q / t in
  if (30 * q) mod t =? 0 then
    if 0 <=? q then (k - 1 <=? n) && (n <=? k) else (k <=? n) && (n <=? k + 1)
  else n =? (if 0 <=? q then k else k + 1).

Definition days_close (q t : Z) : bool :=
  match days_until_stockout q (Some t) with
  | Ok (Some n) => stockout_close q t n
  | _ => false
  end.

(** Every stock in [-n, n] and every total in [1, n]. *)
Definition days_close_upto (n : Z) : bool :=
  forallb (fun q => forallb (fun t => days_close q t) (seqZ 1 n)) (seqZ (- n) (2 * n + 1)).

(** C16: with no recorded sale total, or a total that is not positive, the
    handler reports no [days_until_stockout] (null), whatever the stock. *)
Theorem days_until_stockout_no_sales q t :
  t <= 0 -> days_until_stockout q (Some t) = Ok None /\ days_until_stockout q None = Ok None.
Proof.
  intros Ht. unfold days_until_stockout.
  destruct (Z.ltb_spec 0 t); [lia|]. done.
Qed.

(** The float computation [int(q / (t / 30))] is not [floor(30 q / t)]:
    23 units in stock and 23 sold in the window is exactly 30 days of
    stock, but [23 / 30] rounds up, the quotient falls just below 30, and
    the handler reports 29. *)
Example days_until_stockout_rounding_23 :
  days_until_stockout 23 (Some 23) = Ok (Some 29) /\ 30 * 23 / 23 = 30.
Proof. split; vm_compute; reflexivity. Qed.

(** For negative stock [int()] truncates toward zero where spec 4.2
    step 5 says floor: stock -5 with 60 sold gives -2, not -3. *)
Example days_until_stockout_negative_5_60 :
  days_until_stockout (-5) (Some 60) = Ok (Some (-2)) /\ 30 * (-5) / 60 = -3.
Proof. split; vm_compute; reflexivity. Qed.

Lemma days_close_upto_200 : days_close_upto 200 = true.
Proof. vm_compute. reflexivity. Qed.

Lemma days_close_upto_spec n q t :
  days_close_upto n = true -> - n <= q <= n -> 1 <= t <= n -> days_close q t = true.
Proof.
  unfold days_close_upto. rewrite forallb_forall. intros H Hq Ht.
  specialize (H q ltac:(apply list_elem_of_In, elem_of_seqZ; lia)).
  rewrite forallb_forall in H. apply H, list_elem_of_In, elem_of_seqZ. lia.
Qed.

Lemma days_close_sound q t :
  days_close q t = true ->
  exists n, days_until_stockout q (Some t) = Ok (Some n) /\ stockout_close q t n = true.
Proof.
  unfold days_close. destruct (days_until_stockout q (Some t)) as [[n|]|]; try discriminate.
  intros H. by exists n.
Qed.

Lemma days_close_200 q t :
  -200 <= q <= 200 -> 1 <= t <= 200 ->
  exists n, days_until_stockout q (Some t) = Ok (Some n) /\ stockout_close q t n = true.
Proof. intros Hq Ht. apply days_close_sound, (days_close_upto_spec 200); auto using days_close_upto_200. Qed.

(** C14: bounded exhaustive check against spec 4.2 step 5: for every
    stock [0 <= q <= 200] and every 30-day total [1 <= t <= 200] the
    handler returns a number of days, equal to [floor(30 q / t)] when that
    quotient is not an integer, and to it or one less when it is (the
    float rounding of [t / 30] and of the division). *)
Theorem days_until_stockout_bounded q t :
  0 <= q <= 200 -> 1 <= t <= 200 ->
  exists n, days_until_stockout q (Some t) = Ok (Some n)
    /\ (if (30 * q) mod t =? 0 then 30 * q / t - 1 <= n <= 30 * q / t else n = 30 * q / t).
Proof.
  intros Hq Ht. destruct (days_close_200 q t) as (n & Hn & Hc); [lia|lia|].
  exists n. split; [done|]. unfold stockout_close in Hc.
  destruct (Z.leb_spec 0 q); [|lia]. destruct (_ =? 0).
  - apply andb_true_iff in Hc as [?%Z.leb_le ?%Z.leb_le]. lia.
  - by apply Z.eqb_eq.
Qed.

(** C15: for negative stock (which the creation endpoint accepts) the
    handler never reports the floor of spec 4.2 step 5 when [30 q / t] is
    not an integer: for every [-200 <= q < 0] and [1 <= t <= 200] it
    reports one more (the truncation toward zero of [int()]), and the
    floor or one more when the quotient is an integer. *)
Theorem days_until_stockout_negative q t :
  -200 <= q < 0 -> 1 <= t <= 200 ->
  exists n, days_until_stockout q (Some t) = Ok (Some n)
    /\ (if (30 * q) mod t =? 0 then 30 * q / t <= n <= 30 * q / t + 1 else n = 30 * q / t + 1).
Proof.
  intros Hq Ht. destruct (days_close_200 q t) as (n & Hn & Hc); [lia|lia|].
  exists n. split; [done|]. unfold stockout_close in Hc.
  destruct (Z.leb_spec 0 q); [lia|]. destruct (_ =? 0).
  - apply andb_true_iff in Hc as [?%Z.leb_le ?%Z.leb_le]. lia.
  - by apply Z.eqb_eq.
Qed.

(** ** A sample database and the witnesses of the theorems *)

Definition sample_now : Z := 100 * day_us.



Lemma alerts_refine_witness :
  exists resp, get_low_stock_alerts sample_db sample_now 7 = Ok resp
    /\ ((1, 1) ∈ (fun a => (al_product_id a, al_warehouse_id a)) <$> alerts resp
        <-> low_stock_item sample_db 7 (activity_since_date sample_now) (1, 1)).
Proof.
  eexists. split; [reflexivity|].
  apply (alerts_refine sample_db sample_now 7). reflexivity.
Defined.

Lemma alerts_unique_witness :
  exists resp, wf_db sample_db /\ get_low_stock_alerts sample_db sample_now 8 = Ok resp
    /\ NoDup ((fun a => (al_product_id a, al_warehouse_id a)) <$> alerts resp).
Proof.
  eexists. split; [apply sample_db_wf|]. split; [reflexivity|].
  apply (alerts_unique sample_db sample_now 8); [apply sample_db_wf|reflexivity].
Defined.

Lemma query_total_sold_witness :
  wf_db sample_db
  /\ (mkRow sample_inv1 sample_widget sample_main sample_type (Some sample_acme) sample_sale1,
      Some 60) ∈ low_stock_query sample_db 7 (activity_since_date sample_now)
  /\ Some 60 = Some (recent_sold sample_db sample_inv1 (activity_since_date sample_now)).
Proof.
  assert (Hin : (mkRow sample_inv1 sample_widget sample_main sample_type (Some sample_acme) sample_sale1,
      Some 60) ∈ low_stock_query sample_db 7 (activity_since_date sample_now)).
  { apply list_elem_of_In. vm_compute. left. reflexivity. }
  split; [apply sample_db_wf|]. split; [exact Hin|].
  apply (query_total_sold sample_db 7 (activity_since_date sample_now) _ _ sample_db_wf Hin).
Defined.

Lemma days_until_stockout_no_sales_witness :
  0 <= 0 /\ days_until_stockout 5 (Some 0) = Ok None /\ days_until_stockout 5 None = Ok None.
Proof. split; [lia|]. apply (days_until_stockout_no_sales 5 0). lia. Defined.

(** The example of spec section 8: stock 5 and 60 sold. *)
Lemma days_until_stockout_bounded_witness :
  (0 <= 5 <= 200 /\ 1 <= 60 <= 200)
  /\ exists n, days_until_stockout 5 (Some 60) = Ok (Some n)
    /\ (if (30 * 5) mod 60 =? 0 then 30 * 5 / 60 - 1 <= n <= 30 * 5 / 60 else n = 30 * 5 / 60).
Proof. split; [lia|]. apply (days_until_stockout_bounded 5 60); lia. Defined.

Lemma days_until_stockout_negative_witness :
  (-200 <= -5 < 0 /\ 1 <= 60 <= 200)
  /\ exists n, days_until_stockout (-5) (Some 60) = Ok (Some n)
    /\ (if (30 * -5) mod 60 =? 0 then 30 * -5 / 60 <= n <= 30 * -5 / 60 + 1
        else n = 30 * -5 / 60 + 1).
Proof. split; [lia|]. apply (days_until_stockout_negative (-5) 60); lia. Defined.
