(* ===== verification/Interaction.v ===== *)
(** * The two handlers over one database

    [create_product] writes the tables [get_low_stock_alerts] reads.  The
    product row it inserts never has a product type ([Product(...)] in
    [src/fixedApiEnd.py] lines 23-28 sets no [product_type_id]), and the
    alert query joins Product with ProductType by an inner join
    ([src/low_stock_alert_APIEndpoint.py] line 28).  So a product created
    through the endpoint is invisible to the alert query: creating it
    leaves every company's report exactly as it was, whatever stock it is
    created with. *)

From Stdlib Require Import ZArith String Floats.
From stdpp Require Import base list strings.
From S2P Require Import Prelude PyNum Json Schema Session CreateProduct LowStock.

Local Open Scope Z_scope.

(** ** The application: a sequence of requests over one database

    Spec section 2: two independent handlers over a shared store.  The
    application serves requests one after the other; a creation request
    runs [create_product] and leaves the committed database it produces,
    an alert request reads the database at its time [now]. *)

Inductive request :=
| ReqCreate (data : jvalue)
| ReqAlerts (now company_id : Z).

Inductive reply :=
| RepCreate (r : outcome response)
| RepAlerts (r : outcome alerts_response).

Definition serve (d : db) (q : request) : reply * db :=
  match q with
  | ReqCreate data => let '(r, d') := run_create d data in (RepCreate r, d')
  | ReqAlerts now cid => (RepAlerts (get_low_stock_alerts d now cid), d)
  end.

Fixpoint serve_all (d : db) (qs : list request) : list reply * db :=
  match qs with
  | [] => ([], d)
  | q :: qs' =>
      let '(r, d1) := serve d q in
      let '(rs, d2) := serve_all d1 qs' in
      (r :: rs, d2)
  end.

(** The alert replies of a list of replies. *)
Fixpoint alert_replies (rs : list reply) : list (outcome alerts_response) :=
  match rs with
  | [] => []
  | RepAlerts r :: rs' => r :: alert_replies rs'
  | RepCreate _ :: rs' => alert_replies rs'
  end.

(** The alert requests of a list of requests. *)
Fixpoint alert_requests (qs : list request) : list (Z * Z) :=
  match qs with
  | [] => []
  | ReqAlerts now cid :: qs' => (now, cid) :: alert_requests qs'
  | ReqCreate _ :: qs' => alert_requests qs'
  end.

(** The database after a successful creation, as [run_create_shape] gives it. *)
Definition created_db (d : db) (p : product) (i : inventory) : db :=
  with_inventories (with_products d (products d ++ [p])) (inventories d ++ [i]).

(** A row whose product has no type joins nothing. *)
Lemma joined_for_untyped_product d' p i :
  p_product_type_id p = None ->
  List.filter (fun q => p_id q =? i_product_id i) (products d') = [p] ->
  joined_for d' i = [].
Proof.
  intros Ht Hf. unfold joined_for. rewrite Hf. simpl.
  unfold type_matches. rewrite Ht. simpl.
  rewrite List.filter_false. simpl. rewrite app_nil_r.
  by apply flat_map_nil_ok.
Qed.

(** The joins of an old inventory row do not see the new product, whose
    id is fresh. *)
Lemma joined_for_created_old d p i j :
  p_id p ∉ p_id <$> products d -> i_product_id j ∈ p_id <$> products d ->
  joined_for (created_db d p i) j = joined_for d j.
Proof.
  intros Hfresh Hj. unfold joined_for. simpl.
  rewrite List.filter_app. simpl.
  destruct (Z.eqb_spec (p_id p) (i_product_id j)) as [Heq|]; [|by rewrite app_nil_r].
  by rewrite Heq in Hfresh.
Qed.

(** On a database whose inventory rows reference existing products, the
    new rows add no joined row. *)
Lemma joined_created d p i :
  Forall (fun j => inventory_refs_ok d j = true) (inventories d) ->
  p_id p ∉ p_id <$> products d -> p_product_type_id p = None -> i_product_id i = p_id p ->
  joined (created_db d p i) = joined d.
Proof.
  intros Hfk Hfresh Ht Hi. unfold joined. simpl. rewrite flat_map_app. simpl.
  rewrite (joined_for_untyped_product (created_db d p i) p i Ht).
  - rewrite app_nil_r. apply flat_map_ext_in. intros j Hj.
    apply joined_for_created_old; [done|].
    rewrite Forall_forall in Hfk. specialize (Hfk j ltac:(by apply list_elem_of_In)).
    apply andb_true_iff in Hfk as [Hfk _]. by apply (existsb_Z_in p_id).
  - simpl. rewrite List.filter_app, Hi. simpl. rewrite Z.eqb_refl.
    rewrite filter_all_false; [done|]. intros q Hq. apply Z.eqb_neq. intros Heq.
    apply Hfresh. rewrite <- Heq. by apply list_elem_of_fmap_2, list_elem_of_In.
Qed.

(** A creation request, whatever its outcome, leaves the low-stock report
    of every company at every time unchanged. *)
Lemma create_keeps_alerts d data now cid :
  wf_db d ->
  get_low_stock_alerts (run_create d data).2 now cid = get_low_stock_alerts d now cid.
Proof.
  intros (_ & _ & _ & _ & _ & Hfk & _).
  destruct (run_create_shape d data) as [-> | (n & s & f & w & q & ->)]; [done|].
  unfold get_low_stock_alerts, low_stock_query.
  change (with_inventories _ _) with
    (created_db d (mkProduct (next_id (p_id <$> products d)) n s f w None None)
                  (mkInventory (next_id (i_id <$> inventories d)) (next_id (p_id <$> products d)) w q)).
  rewrite joined_created; [done|done| |done|done]. apply next_id_fresh.
Qed.

(** C12: on a database satisfying its integrity constraints, in any
    sequence of creation and alert requests every alert request is
    answered as on the initial database: products created through the
    endpoint have no product type, so the alert query's inner join with
    ProductType never reports them, whatever their stock. *)
Theorem serve_all_alerts_ignore_creations d qs :
  wf_db d ->
  alert_replies (serve_all d qs).1
  = map (fun q => get_low_stock_alerts d q.1 q.2) (alert_requests qs).
Proof.
  revert d. induction qs as [|[data|now cid] qs IH]; intros d Hwf; [done|..]; simpl.
  - destruct (run_create d data) as [r d1] eqn:Hr.
    pose proof (create_keeps_alerts d data) as Hk. pose proof (create_preserves_wf d data Hwf) as Hw.
    rewrite Hr in Hk, Hw. simpl in Hk, Hw.
    destruct (serve_all d1 qs) as [rs d2] eqn:Hs. simpl.
    specialize (IH d1 Hw). rewrite Hs in IH. simpl in IH. rewrite IH.
    apply map_ext. intros q. by apply Hk.
  - destruct (serve_all d qs) as [rs d2] eqn:Hs. simpl.
    specialize (IH d Hwf). rewrite Hs in IH. simpl in IH. by rewrite IH.
Qed.

Lemma serve_all_alerts_ignore_creations_witness :
  wf_db sample_db
  /\ alert_replies
       (serve_all sample_db
          [ReqAlerts sample_now 7;
           ReqCreate (JObj (sample_request "S-1" (JStr "9.5") 1 (JInt 0)));
           ReqAlerts sample_now 7]).1
     = map (fun q => get_low_stock_alerts sample_db q.1 q.2)
           (alert_requests [ReqAlerts sample_now 7;
                            ReqCreate (JObj (sample_request "S-1" (JStr "9.5") 1 (JInt 0)));
                            ReqAlerts sample_now 7]).
Proof. split; [apply sample_db_wf|]. apply serve_all_alerts_ignore_creations. apply sample_db_wf. Defined.
